(** * DLFS: the lost-and-found registry of [src/Classes/dlfs.py]

    A shallow embedding of the persistence helpers ([load_data],
    [save_data], the module-level start-up loop), of the controller
    [DLFSController], of the menus of [DLFSUI] over a console, and of
    [main], followed by the properties of the record store and of the
    menus.

    Modelling decisions, all stated once here:
    - a Python value that can live in the JSON files is a [json] tree;
      a dict is an association list in insertion order whose keys are
      pairwise distinct (Python dicts have no duplicate keys); numbers are
      integers (the program never produces a float);
    - a text is the string of its UTF-8 bytes: equality, concatenation
      and the substring test of Python are those of the bytes, and a
      character is a leading byte with its continuation bytes;
    - [str.lower] is the interpreter's and follows its Unicode tables: it
      is a parameter of the model, the class [Py.Lower], with the facts
      about it that the properties use (on ASCII text only the letters
      A-Z change; two entries for the Greek capital sigma);
    - the files under [data/] are regular files that the program may read
      and write; the content of one is what [json.load] makes of it: it
      parses to a value, or it is rejected with JSONDecodeError, or its
      bytes are not text and reading it raises UnicodeDecodeError;
      [json.dump] writes text that parses back to the value dumped;
    - a raised exception ends the run of an operation: [Raise e]; the
      partly updated objects are not observed afterwards;
    - [random.randint(1000, 9999)] is an input of the operation that
      calls it: the number drawn;
    - what the callers pass as text (names, emails, passwords, roles,
      queries, the claim id to approve) is a string; the ids of users and
      of items are arbitrary values;
    - [print] has no effect on the store and is left out of the
      controller; the model of the menus keeps what is written, and adds
      the line [login] prints where the menus call it;
    - a [while True:] loop of the menus is given a number of rounds, and
      ends with [OutOfFuel] when they are used up; with more rounds than
      lines to read this does not happen. *)

From Stdlib Require Import ZArith Lia Ascii.
From stdpp Require Import gmap strings list pretty.

Set Warnings "-register-all".
Open Scope Z_scope.

(** ** Python values and exceptions *)

Inductive json : Type :=
| JNull
| JBool (b : bool)
| JInt (n : Z)
| JStr (s : string)
| JArr (l : list json)
| JObj (kv : list (string * json)).

Inductive exn : Type :=
| KeyError
| TypeError
| AttributeError
| FileNotFoundError
| UnicodeDecodeError.

Inductive result (A : Type) : Type :=
| Ok (a : A)
| Raise (e : exn).
Arguments Ok {A} a.
Arguments Raise {A} e.

#[global] Instance result_ret : MRet result := λ A a, Ok a.
#[global] Instance result_bind : MBind result := λ A B f m,
  match m with
  | Ok a => f a
  | Raise e => Raise e
  end.

Module Py.

(** [d.get(k)] on the association list of a dict: the entry of key [k]. *)
Fixpoint dict_get (k : string) (kv : list (string * json)) : option json :=
  match kv with
  | [] => None
  | (k', v) :: rest => if String.eqb k' k then Some v else dict_get k rest
  end.

(** [d[k] = v]: the value of an existing key is replaced where it stands,
    a new key goes to the end. *)
Fixpoint dict_set (k : string) (v : json) (kv : list (string * json))
  : list (string * json) :=
  match kv with
  | [] => [(k, v)]
  | (k', v') :: rest =>
      if String.eqb k' k then (k', v) :: rest else (k', v') :: dict_set k v rest
  end.

(** [==] on values: [None] equals itself only, booleans and integers
    compare as numbers ([True == 1]), strings and lists compare
    elementwise, dicts compare as maps, whatever the order of keys. *)
Fixpoint eq (a b : json) {struct a} : bool :=
  match a, b with
  | JNull, JNull => true
  | JBool x, JBool y => Bool.eqb x y
  | JBool x, JInt y => Z.b2z x =? y
  | JInt x, JBool y => x =? Z.b2z y
  | JInt x, JInt y => x =? y
  | JStr s, JStr t => String.eqb s t
  | JArr l, JArr m =>
      (fix go (l m : list json) {struct l} : bool :=
         match l, m with
         | [], [] => true
         | x :: l', y :: m' => eq x y && go l' m'
         | _, _ => false
         end) l m
  | JObj kv, JObj kw =>
      (length kv =? length kw)%nat &&
      (fix go (kv : list (string * json)) {struct kv} : bool :=
         match kv with
         | [] => true
         | (k, v) :: kv' =>
             match dict_get k kw with
             | Some w => eq v w
             | None => false
             end && go kv'
         end) kv
  | _, _ => false
  end.

(** The letters A-Z lowered, every other byte left alone. *)
Definition lower_ascii (c : ascii) : ascii :=
  let n := N_of_ascii c in
  if ((65 <=? n) && (n <=? 90))%N then ascii_of_N (n + 32) else c.

Fixpoint lower_letters (s : string) : string :=
  match s with
  | EmptyString => EmptyString
  | String c s' => String (lower_ascii c) (lower_letters s')
  end.

(** A text of ASCII characters only. *)
Fixpoint is_ascii (s : string) : bool :=
  match s with
  | EmptyString => true
  | String c s' => (N_of_ascii c <? 128)%N && is_ascii s'
  end.

(** [str.lower]. What it does to a text is decided by the Unicode tables
    of the interpreter, not by the program; the model takes the function
    as given, with three facts about it: on ASCII text it lowers the
    letters A-Z and nothing else; a capital sigma on its own becomes the
    small sigma; at the end of a word it becomes the final sigma. *)
Class Lower : Type :=
  { lower : string → string;
    lower_ascii_text (s : string) :
      is_ascii s = true → lower s = lower_letters s;
    lower_sigma : lower "Σ" = "σ";
    lower_final_sigma : lower "ΟΣ" = "ος" }.

(** The least that is known of [str.lower]: the two entries for sigma,
    and the letters A-Z lowered in every other text. It agrees with
    [str.lower] wherever the three facts decide, which is where the
    examples use it. *)
Definition lower_known (s : string) : string :=
  if String.eqb s "Σ" then "σ"
  else if String.eqb s "ΟΣ" then "ος"
  else lower_letters s.

(** [s.startswith(p)] and [q in s] on strings. *)
Fixpoint startswith (p s : string) : bool :=
  match p, s with
  | EmptyString, _ => true
  | String a p', String b s' => Ascii.eqb a b && startswith p' s'
  | String _ _, EmptyString => false
  end.

Fixpoint str_in (q s : string) : bool :=
  startswith q s ||
  match s with
  | EmptyString => false
  | String _ s' => str_in q s'
  end.

(** A continuation byte of a character of several bytes. *)
Definition is_continuation (c : ascii) : bool :=
  let n := N_of_ascii c in ((128 <=? n) && (n <? 192))%N.

(** The continuation bytes a string starts with, and the characters
    after them. *)
Fixpoint split_chars (s : string) : string * list json :=
  match s with
  | EmptyString => (EmptyString, [])
  | String c s' =>
      let '(cont, rest) := split_chars s' in
      if is_continuation c then (String c cont, rest)
      else (EmptyString, JStr (String c cont) :: rest)
  end.

(** The characters of a string, as Python iterates it. *)
Definition chars (s : string) : list json := (split_chars s).2.

(** [for x in c]: the elements of a list, the keys of a dict, the
    characters of a string; anything else is not iterable. *)
Definition iter (c : json) : result (list json) :=
  match c with
  | JArr l => Ok l
  | JObj kv => Ok (map (λ e, JStr e.1) kv)
  | JStr s => Ok (chars s)
  | _ => Raise TypeError
  end.

(** [k in c] for a string [k]: a key of a dict, an element of a list, a
    substring of a string. *)
Definition contains (c : json) (k : string) : result bool :=
  match c with
  | JObj kv => Ok (bool_decide (is_Some (dict_get k kv)))
  | JArr l => Ok (existsb (λ x, eq x (JStr k)) l)
  | JStr s => Ok (str_in k s)
  | _ => Raise TypeError
  end.

(** [c[k]] for a string [k]. *)
Definition getitem (c : json) (k : string) : result json :=
  match c with
  | JObj kv =>
      match dict_get k kv with
      | Some v => Ok v
      | None => Raise KeyError
      end
  | _ => Raise TypeError
  end.

(** [c[k] = v] for a string [k]; the result is the object after the
    assignment. *)
Definition setitem (c : json) (k : string) (v : json) : result json :=
  match c with
  | JObj kv => Ok (JObj (dict_set k v kv))
  | _ => Raise TypeError
  end.

(** [c.append(x)]. *)
Definition append (c : json) (x : json) : result json :=
  match c with
  | JArr l => Ok (JArr (l ++ [x]))
  | _ => Raise AttributeError
  end.

(** [v.lower()]. *)
Definition str_lower {Lw : Lower} (v : json) : result string :=
  match v with
  | JStr s => Ok (lower s)
  | _ => Raise AttributeError
  end.

(** [for x in c: body], where [body] may assign into [x]: the elements of
    a list are updated where they stand; keys and characters are
    immutable, the container is as before. *)
Fixpoint each (body : json → result json) (l : list json) : result (list json) :=
  match l with
  | [] => Ok []
  | x :: rest =>
      x' ← body x;
      rest' ← each body rest;
      Ok (x' :: rest')
  end.

Definition for_each (c : json) (body : json → result json) : result json :=
  match c with
  | JArr l => l' ← each body l; Ok (JArr l')
  | _ => l ← iter c; _ ← each body l; Ok c
  end.

(** The container after its [i]-th element, reached by iteration, has
    been assigned into. *)
Definition store (c : json) (i : nat) (x : json) : json :=
  match c with
  | JArr l => JArr (<[i := x]> l)
  | _ => c
  end.

End Py.

(** ** The files under [data/] *)

(** What [json.load] makes of a file: the value its text parses to; a
    text that is not JSON (JSONDecodeError); bytes that are not a text
    (UnicodeDecodeError). *)
Inductive file : Type :=
| Parses (v : json)
| Unparseable
| Undecodable.

(** The directory [data/]: file name to content. *)
Abbreviation disk := (gmap string file).

(** The fixed accounts written on the first run. *)
Definition seed_users : json :=
  JArr [ JObj [ ("id", JInt 1); ("name", JStr "Admin");
                ("email", JStr "admin@dlfs.com");
                ("password", JStr "admin123"); ("role", JStr "admin") ];
         JObj [ ("id", JInt 2); ("name", JStr "User");
                ("email", JStr "User@dlfs.com");
                ("password", JStr "user123"); ("role", JStr "user") ] ].

(** One round of the start-up loop: a file that exists is left alone, a
    missing one is created, [users.json] with the seeds and the other two
    with the empty list. *)
Definition ensure_file (fs : disk) (file : string) : disk :=
  match fs !! file with
  | Some _ => fs
  | None =>
      <[file := Parses (if String.eqb file "users.json"
                        then seed_users else JArr [])]> fs
  end.

(** The module-level code: [data/] is created when missing ([None]), then
    the three files are ensured in this order. *)
Definition bootstrap (data_dir : option disk) : disk :=
  foldl ensure_file (default ∅ data_dir)
        ["users.json"; "items.json"; "claims.json"].

Definition load_data (fs : disk) (file_name : string) : result json :=
  match fs !! file_name with
  | None => Raise FileNotFoundError
  | Some (Parses v) => Ok v
  | Some Unparseable => Ok (JArr [])
  | Some Undecodable => Raise UnicodeDecodeError
  end.

Definition save_data (fs : disk) (file_name : string) (data : json) : disk :=
  <[file_name := Parses data]> fs.

(** ** The record classes *)

Module User.
Record t : Type := __init__
  { user_id : json; name : string; email : string;
    password : string; role : string }.

Definition __dict__ (self : t) : json :=
  JObj [ ("user_id", user_id self); ("name", JStr (name self));
         ("email", JStr (email self)); ("password", JStr (password self));
         ("role", JStr (role self)) ].
End User.

Module ReportedItem.
Record t : Type := mk
  { item_id : string; name : string; description : string;
    location : string; item_type : string; status : string }.

(** [drawn] is the outcome of [random.randint(1000, 9999)]. *)
Definition __init__ (drawn : Z) (name description location item_type : string) : t :=
  {| item_id := "ITEM-" +:+ pretty drawn;
     name := name;
     description := description;
     location := location;
     item_type := item_type;
     status := "reported" |}.

Definition __dict__ (self : t) : json :=
  JObj [ ("item_id", JStr (item_id self)); ("name", JStr (name self));
         ("description", JStr (description self));
         ("location", JStr (location self));
         ("item_type", JStr (item_type self));
         ("status", JStr (status self)) ].
End ReportedItem.

Module Claim.
Record t : Type := mk
  { claim_id : string; user_id : json; item_id : json; status : string }.

(** [drawn] is the outcome of [random.randint(1000, 9999)]. *)
Definition __init__ (drawn : Z) (user_id item_id : json) : t :=
  {| claim_id := "CLM-" +:+ pretty drawn;
     user_id := user_id;
     item_id := item_id;
     status := "pending" |}.

Definition __dict__ (self : t) : json :=
  JObj [ ("claim_id", JStr (claim_id self)); ("user_id", user_id self);
         ("item_id", item_id self); ("status", JStr (status self)) ].
End Claim.

(** ** The controller *)

Module DLFSController.

Record t : Type := mk { users : json; items : json; claims : json }.

Definition __init__ (fs : disk) : result t :=
  users ← load_data fs "users.json";
  items ← load_data fs "items.json";
  claims ← load_data fs "claims.json";
  Ok {| users := users; items := items; claims := claims |}.

Definition save_all (self : t) (fs : disk) : disk :=
  let fs := save_data fs "users.json" (users self) in
  let fs := save_data fs "items.json" (items self) in
  save_data fs "claims.json" (claims self).

(** The loop of [login]; [None] is Python's [None]. *)
Fixpoint login_loop (email password : string) (us : list json)
  : result (option json) :=
  match us with
  | [] => Ok None
  | user :: rest =>
      has_email ← Py.contains user "email";
      has_both ← (if has_email : bool then Py.contains user "password"
                  else Ok false);
      if has_both : bool then
        e ← Py.getitem user "email";
        if Py.eq e (JStr email) then
          p ← Py.getitem user "password";
          if Py.eq p (JStr password) then Ok (Some user)
          else login_loop email password rest
        else login_loop email password rest
      else login_loop email password rest
  end.

Definition login (self : t) (email password : string) : result (option json) :=
  us ← Py.iter (users self);
  login_loop email password us.

Definition add_user (self : t) (fs : disk)
    (user_id : json) (name email password role : string) : result (t * disk) :=
  let new_user := User.__init__ user_id name email password role in
  users ← load_data fs "users.json";
  users ← Py.append users (User.__dict__ new_user);
  let fs := save_data fs "users.json" users in
  users ← load_data fs "users.json";
  Ok ({| users := users; items := items self; claims := claims self |}, fs).

Definition report_item (self : t) (fs : disk) (drawn : Z)
    (name description location item_type : string) (user_id : json)
  : result (string * t * disk) :=
  let item := ReportedItem.__init__ drawn name description location item_type in
  items ← Py.append (items self) (ReportedItem.__dict__ item);
  let self := {| users := users self; items := items; claims := claims self |} in
  let fs := save_all self fs in
  Ok (ReportedItem.item_id item, self, fs).

(** A list comprehension with a condition that may raise. *)
Fixpoint select (cond : json → result bool) (l : list json) : result (list json) :=
  match l with
  | [] => Ok []
  | x :: rest =>
      b ← cond x;
      rest' ← select cond rest;
      Ok (if b : bool then x :: rest' else rest')
  end.

Definition search_items {Lw : Py.Lower} (field : string) (self : t)
    (query : string) : result (list json) :=
  its ← Py.iter (items self);
  select (λ item,
            let q := Py.lower query in
            v ← Py.getitem item field;
            s ← Py.str_lower v;
            Ok (Py.str_in q s)) its.

Definition search_items_name {Lw : Py.Lower} : t → string → result (list json) :=
  search_items "name".
Definition search_items_location {Lw : Py.Lower}
  : t → string → result (list json) :=
  search_items "location".
Definition search_items_type {Lw : Py.Lower} : t → string → result (list json) :=
  search_items "item_type".

Definition claim_item (self : t) (fs : disk) (drawn : Z)
    (user_id item_id : json) : result (string * t * disk) :=
  let claim := Claim.__init__ drawn user_id item_id in
  claims ← Py.append (claims self) (Claim.__dict__ claim);
  let self := {| users := users self; items := items self; claims := claims |} in
  let fs := save_all self fs in
  Ok (Claim.claim_id claim, self, fs).

(** The body of the inner loop of [approve_claim]. *)
Definition mark_claimed (claim item : json) : result json :=
  a ← Py.getitem item "item_id";
  b ← Py.getitem claim "item_id";
  if Py.eq a b then Py.setitem item "status" (JStr "claimed") else Ok item.

(** The outer loop of [approve_claim]; [i] is the position of the head
    of [cs] in [self.claims]. *)
Fixpoint approve_loop (self : t) (fs : disk) (claim_id : string)
    (i : nat) (cs : list json) : result (bool * t * disk) :=
  match cs with
  | [] => Ok (false, self, fs)
  | claim :: rest =>
      id ← Py.getitem claim "claim_id";
      if Py.eq id (JStr claim_id) then
        claim ← Py.setitem claim "status" (JStr "approved");
        items ← Py.for_each (items self) (mark_claimed claim);
        let self := {| users := users self; items := items;
                       claims := Py.store (claims self) i claim |} in
        let fs := save_all self fs in
        Ok (true, self, fs)
      else approve_loop self fs claim_id (S i) rest
  end.

Definition approve_claim (self : t) (fs : disk) (claim_id : string)
  : result (bool * t * disk) :=
  cs ← Py.iter (claims self);
  approve_loop self fs claim_id 0 cs.

End DLFSController.

(** ** The menu action that adds an account *)

Module DLFSUI.

(** [add_user]: the five arguments are the lines typed at the prompts. *)
Definition add_user {Lw : Py.Lower} (controller : DLFSController.t) (fs : disk)
    (id name email password role : string)
  : result (DLFSController.t * disk) :=
  let role := Py.lower role in
  let role := if existsb (String.eqb role) ["user"; "admin"] then role
              else "user" in
  DLFSController.add_user controller fs (JStr id) name email password role.

End DLFSUI.

(** ** Vocabulary of the statements *)

(** The value of field [k] of a record; [None] when the value is not a
    dict or has no such key. *)
Definition field (k : string) (rec : json) : option json :=
  match rec with
  | JObj kv => Py.dict_get k kv
  | _ => None
  end.

Definition is_record (v : json) : Prop := ∃ kv, v = JObj kv.

Definition has_field (k : string) (rec : json) : Prop := is_Some (field k rec).

(** [rec'] is [rec] with field [k] set to [v] and nothing else changed. *)
Definition updated (k : string) (v : json) (rec rec' : json) : Prop :=
  is_record rec' ∧ field k rec' = Some v ∧
  ∀ k', k' ≠ k → field k' rec' = field k' rec.

(** Durable storage holds exactly the three collections in memory. *)
Definition synced (self : DLFSController.t) (fs : disk) : Prop :=
  fs !! "users.json" = Some (Parses (DLFSController.users self)) ∧
  fs !! "items.json" = Some (Parses (DLFSController.items self)) ∧
  fs !! "claims.json" = Some (Parses (DLFSController.claims self)).

(** [r] is the first element of [l] that satisfies [P], if there is one. *)
Definition first_such {A : Type} (P : A → Prop) (l : list A) (r : option A) : Prop :=
  match r with
  | Some x => ∃ pre post, l = pre ++ x :: post ∧ P x ∧ Forall (λ y, ¬ P y) pre
  | None => Forall (λ y, ¬ P y) l
  end.

(** [r] is made of the elements of [l] that satisfy [P], in the order of [l]. *)
Inductive keeps {A : Type} (P : A → Prop) : list A → list A → Prop :=
| keeps_nil : keeps P [] []
| keeps_take x l r : P x → keeps P l r → keeps P (x :: l) (x :: r)
| keeps_skip x l r : ¬ P x → keeps P l r → keeps P (x :: l) r.

(** Two bytes that differ at most in the case of a letter A-Z. *)
Definition ci_char (a b : ascii) : Prop :=
  let x := N_of_ascii a in
  let y := N_of_ascii b in
  (x = y ∨ (65 ≤ x ≤ 90 ∧ y = x + 32) ∨ (65 ≤ y ≤ 90 ∧ x = y + 32))%N.

Fixpoint same_letters (s t : string) : Prop :=
  match s, t with
  | EmptyString, EmptyString => True
  | String a s', String b t' => ci_char a b ∧ same_letters s' t'
  | _, _ => False
  end.

(** [q] occurs in [s] up to the case of letters. *)
Definition ci_substring (q s : string) : Prop :=
  ∃ pre mid post, s = pre +:+ mid +:+ post ∧ same_letters mid q.

(** [q] occurs in [s] as it stands. *)
Definition occurs (q s : string) : Prop := ∃ pre post, s = pre +:+ q +:+ post.

(** Field [fld] of [item] is a text in which [q] occurs once [str.lower]
    has been applied to both. *)
Definition field_matches {Lw : Py.Lower} (fld q : string) (item : json) : Prop :=
  ∃ s, field fld item = Some (JStr s) ∧ occurs (Py.lower q) (Py.lower s).

(** Field [fld] of [item] is a text in which [q] occurs up to the case of
    the letters A-Z. *)
Definition field_matches_letters (fld q : string) (item : json) : Prop :=
  ∃ s, field fld item = Some (JStr s) ∧ ci_substring q s.

(** Field [fld] of [item] is an ASCII text. *)
Definition ascii_field (fld : string) (item : json) : Prop :=
  ∃ s, field fld item = Some (JStr s) ∧ Py.is_ascii s = true.

Definition text_field (fld : string) (item : json) : Prop :=
  ∃ s, field fld item = Some (JStr s).

(** The number a string of decimal digits denotes. *)
Definition digit_value (c : ascii) : option Z :=
  let n := N_of_ascii c in
  if ((48 <=? n) && (n <=? 57))%N then Some (Z.of_N n - 48) else None.

Fixpoint decimal_value (acc : Z) (s : string) : option Z :=
  match s with
  | EmptyString => Some acc
  | String c s' =>
      match digit_value c with
      | Some d => decimal_value (10 * acc + d) s'
      | None => None
      end
  end.

(** [s] is a number of exactly four decimal digits, of value [n]. *)
Definition four_digits (n : Z) (s : string) : Prop :=
  String.length s = 4%nat ∧ decimal_value 0 s = Some n.

(** The account [u] carries these credentials, exactly. *)
Definition credentials (email password : string) (u : json) : Prop :=
  field "email" u = Some (JStr email) ∧
  field "password" u = Some (JStr password).

(** The call returned, and the account it appended, in memory and on
    disk, carries role [r]. *)
Definition account_added_with_role (r : string)
    (res : result (DLFSController.t * disk)) : Prop :=
  ∃ self' fs' us u,
    res = Ok (self', fs') ∧
    DLFSController.users self' = JArr (us ++ [u]) ∧
    fs' !! "users.json" = Some (Parses (JArr (us ++ [u]))) ∧
    field "role" u = Some (JStr r).

(** What the approval of a claim on item [iid] does to one item. *)
Definition item_step (iid : string) (item item' : json) : Prop :=
  (field "item_id" item = Some (JStr iid) ∧
   updated "status" (JStr "claimed") item item') ∨
  (field "item_id" item ≠ Some (JStr iid) ∧ item' = item).

(** A claim that does not answer to [cid]. *)
Definition other_claim (cid : string) (c : json) : Prop :=
  ∃ v, field "claim_id" c = Some v ∧ v ≠ JStr cid.

(** The records of the data model, and a store that holds only such. *)
Definition item_record (item : json) : Prop :=
  has_field "item_id" item ∧ text_field "name" item ∧
  text_field "location" item ∧ text_field "item_type" item.

Definition claim_record (c : json) : Prop :=
  text_field "claim_id" c ∧ text_field "item_id" c.

Definition well_formed (self : DLFSController.t) : Prop :=
  ∃ us its cs,
    DLFSController.users self = JArr us ∧
    DLFSController.items self = JArr its ∧
    DLFSController.claims self = JArr cs ∧
    Forall is_record us ∧ Forall item_record its ∧ Forall claim_record cs.

Definition consistent (self : DLFSController.t) (fs : disk) : Prop :=
  well_formed self ∧ synced self fs.

(** The claim/approve life cycle from a store [self], [fs]: the claim is
    filed with the number [drawn], then approved under the id that
    [claim_item] returned. *)
Definition lifecycle (self : DLFSController.t) (fs : disk)
    (drawn : Z) (uid : json) (iid : string) : Prop :=
  ∃ cs its cid self1 fs1 c self2 fs2 c' its',
    DLFSController.claims self = JArr cs ∧
    DLFSController.items self = JArr its ∧
    DLFSController.claim_item self fs drawn uid (JStr iid) = Ok (cid, self1, fs1) ∧
    cid = "CLM-" +:+ pretty drawn ∧
    DLFSController.claims self1 = JArr (cs ++ [c]) ∧
    DLFSController.items self1 = JArr its ∧
    field "claim_id" c = Some (JStr cid) ∧
    field "user_id" c = Some uid ∧
    field "item_id" c = Some (JStr iid) ∧
    field "status" c = Some (JStr "pending") ∧
    DLFSController.approve_claim self1 fs1 cid = Ok (true, self2, fs2) ∧
    DLFSController.claims self2 = JArr (cs ++ [c']) ∧
    updated "status" (JStr "approved") c c' ∧
    DLFSController.items self2 = JArr its' ∧
    Forall2 (item_step iid) its its' ∧
    (Forall (λ item, field "item_id" item ≠ Some (JStr iid)) its → its' = its).

(** ** Sequences of calls *)

(** One call of a mutating operation of the controller, with its
    arguments and, where an id is generated, the number drawn. *)
Inductive op : Type :=
| AddUser (user_id : json) (name email password role : string)
| ReportItem (drawn : Z) (name description location item_type : string)
             (user_id : json)
| ClaimItem (drawn : Z) (user_id : json) (item_id : string)
| ApproveClaim (claim_id : string).

(** The store after the call; what the call returns is dropped. *)
Definition run_op (o : op) (self : DLFSController.t) (fs : disk)
  : result (DLFSController.t * disk) :=
  match o with
  | AddUser uid name email password role =>
      DLFSController.add_user self fs uid name email password role
  | ReportItem drawn name description location item_type uid =>
      '(_, self', fs') ← DLFSController.report_item self fs drawn
                           name description location item_type uid;
      Ok (self', fs')
  | ClaimItem drawn uid iid =>
      '(_, self', fs') ← DLFSController.claim_item self fs drawn uid (JStr iid);
      Ok (self', fs')
  | ApproveClaim cid =>
      '(_, self', fs') ← DLFSController.approve_claim self fs cid;
      Ok (self', fs')
  end.

Fixpoint run_ops (os : list op) (self : DLFSController.t) (fs : disk)
  : result (DLFSController.t * disk) :=
  match os with
  | [] => Ok (self, fs)
  | o :: rest => '(self', fs') ← run_op o self fs; run_ops rest self' fs'
  end.

(** A record with its status set, and the items after the approval of a
    claim on the item id [iid], written as functions. *)
Definition set_status (v : string) (rec : json) : json :=
  match rec with
  | JObj kv => JObj (Py.dict_set "status" (JStr v) kv)
  | _ => rec
  end.

Definition has_item_id (iid : string) (item : json) : bool :=
  match field "item_id" item with
  | Some a => Py.eq a (JStr iid)
  | None => false
  end.

Definition claimed_items (iid : string) (its : list json) : list json :=
  map (λ item, if has_item_id iid item then set_status "claimed" item else item)
      its.

(** ** The console and the menus *)

(** What the menus write to the terminal: the line of a [print], kept as
    the pieces of its f-string (literal text, and the values formatted
    into it), and the prompt of an [input]. *)
Inductive piece : Type :=
| Lit (s : string)
| Fmt (v : json).

Inductive written : Type :=
| Print (line : list piece)
| Prompt (s : string).

(** How a run of the menus ends before its time: an exception of the
    store, [input] at the end of the input, or, for the model only, a
    loop that was given too few rounds. *)
Inductive halt : Type :=
| Raised (e : exn)
| EOFError
| OutOfFuel.

(** One controller (the one [DLFSUI.__init__] constructs), the files, the
    lines still to be typed, what was written so far, and the outcomes of
    [random.randint(1000, 9999)]: [random n] is the [n]-th one, [used]
    of them are used up. *)
Record session : Type := Session
  { controller : DLFSController.t;
    files : disk;
    stdin : list string;
    stdout : list written;
    random : nat → Z;
    used : nat }.

Definition ui (A : Type) : Type := session → (A + halt) * session.

#[global] Instance ui_ret : MRet ui := λ A a s, (inl a, s).
#[global] Instance ui_bind : MBind ui := λ A B f m s,
  match m s with
  | (inl a, s') => f a s'
  | (inr h, s') => (inr h, s')
  end.

Module Console.

Definition write (w : written) (s : session) : session :=
  Session (controller s) (files s) (stdin s) (stdout s ++ [w])
          (random s) (used s).

(** [print(line)]. *)
Definition print (line : list piece) : ui unit :=
  λ s, (inl (), write (Print line) s).

(** [input(prompt)]: the prompt is written, then a line is read. *)
Definition input (prompt : string) : ui string :=
  λ s, let s := write (Prompt prompt) s in
       match stdin s with
       | [] => (inr EOFError, s)
       | line :: rest =>
           (inl line,
            Session (controller s) (files s) rest (stdout s)
                    (random s) (used s))
       end.

(** [random.randint(1000, 9999)]. *)
Definition randint : ui Z :=
  λ s, (inl (random s (used s)),
        Session (controller s) (files s) (stdin s) (stdout s)
                (random s) (S (used s))).

(** An expression that may raise. *)
Definition eval {A : Type} (r : result A) : ui A :=
  λ s, match r with
       | Ok a => (inl a, s)
       | Raise e => (inr (Raised e), s)
       end.

(** A method of the controller that reads the collections. *)
Definition ask {A : Type} (f : DLFSController.t → result A) : ui A :=
  λ s, eval (f (controller s)) s.

(** A method of the controller that may change the collections and the
    files. *)
Definition call {A : Type}
    (f : DLFSController.t → disk → result (A * DLFSController.t * disk))
  : ui A :=
  λ s, match f (controller s) (files s) with
       | Ok (a, c, fs) =>
           (inl a, Session c fs (stdin s) (stdout s) (random s) (used s))
       | Raise e => (inr (Raised e), s)
       end.

Definition out_of_fuel {A : Type} : ui A := λ s, (inr OutOfFuel, s).

(** The truth value of [if v:]. *)
Definition truthy (v : json) : bool :=
  match v with
  | JNull => false
  | JBool b => b
  | JInt n => negb (n =? 0)
  | JStr s => negb (String.eqb s EmptyString)
  | JArr l => negb (bool_decide (l = []))
  | JObj kv => negb (bool_decide (kv = []))
  end.

(** The line feed that opens the headers. *)
Definition nl : string := String (ascii_of_nat 10) EmptyString.

End Console.

Module Menus.
Import Console.

Section with_lower.
Context {Lw : Py.Lower}.

(** [DLFSUI.__init__]: the controller passed in is not kept, a new one is
    constructed from the files. *)
Definition __init__ (passed : DLFSController.t) (fs : disk)
  : result DLFSController.t :=
  DLFSController.__init__ fs.

(** The f-string of one line of [print_items]. *)
Definition item_line (item : json) : result (list piece) :=
  a ← Py.getitem item "item_id";
  b ← Py.getitem item "name";
  c ← Py.getitem item "location";
  d ← Py.getitem item "item_type";
  e ← Py.getitem item "status";
  Ok [ Lit "Item ID: "; Fmt a; Lit ", Name: "; Fmt b; Lit ", Location: "; Fmt c;
       Lit ", Type: "; Fmt d; Lit ", Status: "; Fmt e ].

Fixpoint print_each (l : list json) : ui unit :=
  match l with
  | [] => mret ()
  | item :: rest =>
      line ← eval (item_line item);
      _ ← print line;
      print_each rest
  end.

Definition print_items (results : json) : ui unit :=
  if truthy results then
    _ ← print [Lit (nl +:+ "--- Items Found ---")];
    l ← eval (Py.iter results);
    print_each l
  else print [Lit "No items found matching this search."].

(** [report_lost_item] and [report_found_item] differ in the type and in
    the word of the last line. *)
Definition report_typed_item (item_type word : string) (user : json) : ui unit :=
  name ← input "Item name: ";
  desc ← input "Description: ";
  loc ← input "Location: ";
  uid ← eval (Py.getitem user "id");
  n ← randint;
  item_id ← call (λ c fs, DLFSController.report_item c fs n
                            name desc loc item_type uid);
  print [Lit (word +:+ " item reported. Item ID: "); Fmt (JStr item_id)].

Definition report_lost_item : json → ui unit := report_typed_item "lost" "Lost".
Definition report_found_item : json → ui unit := report_typed_item "found" "Found".

(** [claim_item(user, item_id=None)]; the optional argument is [None] or
    a text. *)
Definition claim_item (user : json) (item_id : option string) : ui unit :=
  match item_id with
  | None => _ ← input "Enter Item ID to claim: "; mret ()
  | Some iid =>
      uid ← eval (Py.getitem user "id");
      n ← randint;
      claim_id ← call (λ c fs, DLFSController.claim_item c fs n uid (JStr iid));
      print [Lit "Claim submitted. Claim ID: "; Fmt (JStr claim_id)]
  end.

Definition search_menu : ui string :=
  _ ← print [Lit (nl +:+ "--- Search Menu ---")];
  _ ← print [Lit "1. View All Items"];
  _ ← print [Lit "2. Search by Keyword"];
  _ ← print [Lit "3. Search by Location"];
  _ ← print [Lit "4. Search by Item Type"];
  input "Choose an option: ".

Definition view_all_items : ui unit :=
  items ← ask (λ c, Ok (DLFSController.items c));
  if truthy items then
    _ ← print [Lit (nl +:+ "--- All Items ---")];
    print_items items
  else print [Lit "No items in the system."].

Definition search_by_keyword (keyword : option string) : ui unit :=
  match keyword with
  | None => _ ← input "Enter keyword: "; mret ()
  | Some k =>
      results ← ask (λ c, DLFSController.search_items_name c k);
      print_items (JArr results)
  end.

Definition search_by_location (location : option string) : ui unit :=
  match location with
  | None => _ ← input "Enter location: "; mret ()
  | Some l =>
      results ← ask (λ c, DLFSController.search_items_location c l);
      print_items (JArr results)
  end.

Definition search_by_type (t : option string) : ui unit :=
  match t with
  | None =>
      _ ← print [Lit "Choose type: 1 for Lost, 2 for Found"];
      _ ← input "Enter choice: ";
      mret ()
  | Some t =>
      let item_type := if String.eqb t "1" then "lost" else "found" in
      results ← ask (λ c, DLFSController.search_items_type c item_type);
      print_items (JArr results)
  end.

(** One round of the loop of [user_menu] after the choice was read;
    [true] when the loop goes on. *)
Definition user_choice (user : json) (choice : string) : ui bool :=
  if String.eqb choice "1" then _ ← report_lost_item user; mret true
  else if String.eqb choice "2" then _ ← report_found_item user; mret true
  else if String.eqb choice "3" then
    sub_choice ← search_menu;
    _ ← (if String.eqb sub_choice "1" then view_all_items
         else if String.eqb sub_choice "2" then search_by_keyword None
         else if String.eqb sub_choice "3" then search_by_location None
         else if String.eqb sub_choice "4" then search_by_type None
         else print [Lit "Invalid choice. Please try again."]);
    mret true
  else if String.eqb choice "4" then _ ← claim_item user None; mret true
  else if String.eqb choice "5" then mret false
  else mret true.

(** One round of [while True:] in [user_menu]; [next] is the rest of the
    loop. *)
Definition user_round (next : ui unit) (user : json) : ui unit :=
  _ ← print [Lit (nl +:+ "--- User Menu ---")];
  _ ← print [Lit "1. Report Lost Item"];
  _ ← print [Lit "2. Report Found Item"];
  _ ← print [Lit "3. Search Items"];
  _ ← print [Lit "4. Claim an Item"];
  _ ← print [Lit "5. Logout"];
  choice ← input "Choose an option: ";
  again ← user_choice user choice;
  if again : bool then next else mret ().

(** [while True:] with at most [fuel] rounds. *)
Fixpoint user_menu (fuel : nat) (user : json) : ui unit :=
  match fuel with
  | O => out_of_fuel
  | S fuel => user_round (user_menu fuel user) user
  end.

Definition approve_claim : ui unit :=
  claim_id ← input "Enter Claim ID: ";
  found ← call (λ c fs, DLFSController.approve_claim c fs claim_id);
  if found : bool then print [Lit "Claim approved."]
  else print [Lit "Claim not found."].

Definition add_user : ui unit :=
  id ← input "User ID (numeric): ";
  name ← input "Name: ";
  email ← input "Email: ";
  password ← input "Password: ";
  role ← input "Role (user/admin): ";
  _ ← (if existsb (String.eqb (Py.lower role)) ["user"; "admin"] then mret ()
       else print [Lit "Invalid role. Defaulting to user."]);
  call (λ c fs,
          '(c', fs') ← DLFSUI.add_user c fs id name email password role;
          Ok ((), c', fs')).

Definition admin_choice (choice : string) : ui bool :=
  if String.eqb choice "1" then _ ← approve_claim; mret true
  else if String.eqb choice "2" then _ ← add_user; mret true
  else if String.eqb choice "3" then mret false
  else mret true.

Definition admin_round (next : ui unit) : ui unit :=
  _ ← print [Lit (nl +:+ "--- Admin Menu ---")];
  _ ← print [Lit "1. Approve Claim"];
  _ ← print [Lit "2. Add user"];
  _ ← print [Lit "3. Logout"];
  choice ← input "Choose an option: ";
  again ← admin_choice choice;
  if again : bool then next else mret ().

Fixpoint admin_menu (fuel : nat) (admin : json) : ui unit :=
  match fuel with
  | O => out_of_fuel
  | S fuel => admin_round (admin_menu fuel admin)
  end.

(** [controller.login] with the line it prints. *)
Definition login (email password : string) : ui (option json) :=
  user ← ask (λ c, DLFSController.login c email password);
  _ ← print [Lit (match user with
                  | Some _ => "Login successful"
                  | None => "Invalid email or password."
                  end)];
  mret user.

(** Choice 1 of the main menu; [admin] and [user] are the two menus it
    may open. *)
Definition main_login (admin user : json → ui unit) : ui unit :=
  email ← input "Email: ";
  password ← input "Password: ";
  found ← login email password;
  match found with
  | Some account =>
      if truthy account then
        role ← eval (Py.getitem account "role");
        if Py.eq role (JStr "admin") then admin account else user account
      else print [Lit "Invalid credentials."]
  | None => print [Lit "Invalid credentials."]
  end.

Definition main_round (admin user : json → ui unit) (next : ui unit) : ui unit :=
  _ ← print [Lit (nl +:+ "--- DLFS Main Menu ---")];
  _ ← print [Lit "1. Login"];
  _ ← print [Lit "2. Exit"];
  choice ← input "Choose an option: ";
  if String.eqb choice "1" then _ ← main_login admin user; next
  else if String.eqb choice "2" then mret ()
  else next.

(** The three loops are given the same number of rounds. *)
Fixpoint main_menu (fuel : nat) : ui unit :=
  match fuel with
  | O => out_of_fuel
  | S fuel => main_round (admin_menu fuel) (user_menu fuel) (main_menu fuel)
  end.

End with_lower.

End Menus.

(** The program: the module-level start-up, then [main()], which
    constructs a controller, constructs the menus (and with them a second
    controller, the one that is used) and opens the main menu. *)
Definition main {Lw : Py.Lower} (fuel : nat) (data_dir : option disk)
    (typed : list string) (random : nat → Z) : (unit + halt) * session :=
  let fs := bootstrap data_dir in
  let start c := Session c fs typed [] random O in
  match DLFSController.__init__ fs with
  | Raise e => (inr (Raised e), start (DLFSController.mk JNull JNull JNull))
  | Ok passed =>
      match Menus.__init__ passed fs with
      | Raise e => (inr (Raised e), start passed)
      | Ok c => Menus.main_menu fuel (start c)
      end
  end.

(** ** Vocabulary for the runs of the menus *)

(** Every run of [m] relates the session before to the session after,
    however the run ends. *)
Definition keeps_rel {A : Type} (R : relation session) (m : ui A) : Prop :=
  ∀ s, R s (m s).2.

(** [m] never ends for want of rounds. *)
Definition never_out_of_fuel {A : Type} (m : ui A) : Prop :=
  ∀ s, (m s).1 ≠ inr OutOfFuel.

(** With fewer than [n] lines left to read, [m] does not end for want of
    rounds. *)
Definition ends_within {A : Type} (n : nat) (m : ui A) : Prop :=
  ∀ s, (length (stdin s) < n)%nat → (m s).1 ≠ inr OutOfFuel.

(** No line was put back on the input. *)
Definition stdin_le (s s' : session) : Prop :=
  (length (stdin s') ≤ length (stdin s))%nat.

(** Only the console moved: lines were read, things were written,
    numbers were drawn. *)
Definition console_only (s s' : session) : Prop :=
  controller s' = controller s ∧ files s' = files s ∧
  stdin s' `suffix_of` stdin s.

(** A claim as it was, or approved. *)
Definition approved_or_same (c c' : json) : Prop :=
  c' = c ∨ updated "status" (JStr "approved") c c'.

(** The same claims, one for one, some of them approved meanwhile. *)
Definition claims_kept (a b : json) : Prop :=
  a = b ∨ ∃ cs cs', a = JArr cs ∧ b = JArr cs' ∧ Forall2 approved_or_same cs cs'.

(** What a run of the user menu may do to the session, and what a run of
    any menu may do. *)
Definition user_step (s s' : session) : Prop :=
  DLFSController.users (controller s') = DLFSController.users (controller s) ∧
  DLFSController.claims (controller s') = DLFSController.claims (controller s) ∧
  (synced (controller s) (files s) → synced (controller s') (files s')) ∧
  stdin s' `suffix_of` stdin s.

Definition menu_step (s s' : session) : Prop :=
  claims_kept (DLFSController.claims (controller s))
              (DLFSController.claims (controller s')) ∧
  (synced (controller s) (files s) → synced (controller s') (files s')) ∧
  stdin s' `suffix_of` stdin s.

(** ** Facts about the Python primitives *)

Section primitives.
Implicit Types (v w : json) (k s : string) (kv : list (string * json)).

Lemma bind_Ok {A B : Type} (m : result A) (f : A → result B) (b : B) :
  m ≫= f = Ok b ↔ ∃ a, m = Ok a ∧ f a = Ok b.
Proof.
  destruct m as [a|e]; simpl; split.
  - eauto.
  - by intros (a' & [= ->] & ?).
  - discriminate.
  - by intros (a' & [=] & _).
Qed.

Lemma eq_JStr v s : Py.eq v (JStr s) = true ↔ v = JStr s.
Proof.
  destruct v as [| | |t| |]; simpl; try (split; [discriminate|by intros [=]]).
  rewrite String.eqb_eq. split; [by intros ->|by intros [= ->]].
Qed.

Lemma eq_JStr_false v s : Py.eq v (JStr s) = false ↔ v ≠ JStr s.
Proof. rewrite <- eq_JStr. by destruct (Py.eq v (JStr s)). Qed.

Lemma getitem_field v k w : Py.getitem v k = Ok w ↔ field k v = Some w.
Proof.
  destruct v as [| | | | |kv]; simpl; try (split; discriminate).
  destruct (Py.dict_get k kv); split; congruence.
Qed.

Lemma getitem_of_field v k w : field k v = Some w → Py.getitem v k = Ok w.
Proof. apply getitem_field. Qed.

Lemma dict_get_set_eq k v kv : Py.dict_get k (Py.dict_set k v kv) = Some v.
Proof.
  induction kv as [|[k' v'] kv IH]; simpl.
  - by rewrite String.eqb_refl.
  - destruct (String.eqb k' k) eqn:E; simpl; by rewrite E.
Qed.

Lemma dict_get_set_ne k k' v kv :
  k' ≠ k → Py.dict_get k' (Py.dict_set k v kv) = Py.dict_get k' kv.
Proof.
  intros Hne. induction kv as [|[k0 v0] kv IH]; simpl.
  - destruct (String.eqb k k') eqn:E; [|done].
    apply String.eqb_eq in E. congruence.
  - destruct (String.eqb k0 k) eqn:E; simpl.
    + apply String.eqb_eq in E. subst k0.
      destruct (String.eqb k k') eqn:E'; [|done].
      apply String.eqb_eq in E'. congruence.
    + by rewrite IH.
Qed.

Lemma setitem_updated v k w :
  is_record v → ∃ v', Py.setitem v k w = Ok v' ∧ updated k w v v'.
Proof.
  intros [kv ->]. eexists. split; [done|]. split; [by eexists|]. split.
  - apply dict_get_set_eq.
  - intros k' Hne. by apply dict_get_set_ne.
Qed.

Lemma field_is_record k v w : field k v = Some w → is_record v.
Proof. destruct v; try discriminate. by eexists. Qed.

Lemma lower_known_ascii s :
  Py.is_ascii s = true → Py.lower_known s = Py.lower_letters s.
Proof.
  intros Hs. unfold Py.lower_known.
  destruct (String.eqb_spec s "Σ") as [->|_]; [discriminate|].
  by destruct (String.eqb_spec s "ΟΣ") as [->|_].
Qed.

End primitives.

(** [Py.lower_known] has the three facts stated of [str.lower]. It is
    what the examples that follow the theorems are computed with, where
    they name it: their texts are ASCII, and there the facts leave no
    choice of the result. Nothing else depends on it. *)
Definition known_lower : Py.Lower :=
  {| Py.lower := Py.lower_known;
     Py.lower_ascii_text := lower_known_ascii;
     Py.lower_sigma := eq_refl;
     Py.lower_final_sigma := eq_refl |}.

(** ** Persistence *)

Section persistence.
Implicit Types (fs : disk) (d : option disk) (v : json).

Lemma ensure_file_noop fs f : is_Some (fs !! f) → ensure_file fs f = fs.
Proof. intros [x Hx]. unfold ensure_file. by rewrite Hx. Qed.

Lemma ensure_file_self fs f : is_Some (ensure_file fs f !! f).
Proof.
  unfold ensure_file. destruct (fs !! f) eqn:E.
  - by rewrite E.
  - by rewrite lookup_insert_eq.
Qed.

Lemma ensure_file_keeps fs f g :
  is_Some (fs !! g) → is_Some (ensure_file fs f !! g).
Proof.
  intros Hg. unfold ensure_file. destruct (fs !! f) eqn:E; [done|].
  destruct (decide (f = g)) as [->|Hne].
  - by rewrite lookup_insert_eq.
  - by rewrite lookup_insert_ne.
Qed.

Lemma bootstrap_has_files d :
  is_Some (bootstrap d !! "users.json") ∧
  is_Some (bootstrap d !! "items.json") ∧
  is_Some (bootstrap d !! "claims.json").
Proof.
  unfold bootstrap. simpl. repeat split.
  - do 2 apply ensure_file_keeps. apply ensure_file_self.
  - apply ensure_file_keeps. apply ensure_file_self.
  - apply ensure_file_self.
Qed.

Lemma bootstrap_again d : bootstrap (Some (bootstrap d)) = bootstrap d.
Proof.
  destruct (bootstrap_has_files d) as (Hu & Hi & Hc).
  unfold bootstrap at 1. simpl.
  rewrite (ensure_file_noop _ "users.json") by done.
  rewrite (ensure_file_noop _ "items.json") by done.
  by rewrite (ensure_file_noop _ "claims.json").
Qed.




End persistence.



(** C5: on a first run (no [data/] directory, or an empty one) the
    start-up loop leaves exactly three files: empty items and claims, and
    the users file with the admin of id 1 and the user of id 2 under their
    fixed credentials; run again on its own result, from any directory, it
    changes nothing, so the users file still holds those two accounts. *)
Theorem bootstrap_idempotent :
  ∃ admin user : json,
    bootstrap None =
      {[ "users.json" := Parses (JArr [admin; user]);
         "items.json" := Parses (JArr []);
         "claims.json" := Parses (JArr []) ]} ∧
    bootstrap (Some ∅) = bootstrap None ∧
    field "id" admin = Some (JInt 1) ∧
    field "role" admin = Some (JStr "admin") ∧
    field "email" admin = Some (JStr "admin@dlfs.com") ∧
    field "password" admin = Some (JStr "admin123") ∧
    field "id" user = Some (JInt 2) ∧
    field "role" user = Some (JStr "user") ∧
    field "email" user = Some (JStr "User@dlfs.com") ∧
    field "password" user = Some (JStr "user123") ∧
    (∀ d : option disk, bootstrap (Some (bootstrap d)) = bootstrap d) ∧
    load_data (bootstrap (Some (bootstrap None))) "users.json"
      = Ok (JArr [admin; user]).
Proof.
  eexists _, _. split; [|split].
  - unfold bootstrap, seed_users. reflexivity.
  - done.
  - repeat split; try done. apply bootstrap_again.
Qed.

(** ** Accounts *)

Section accounts.
Import DLFSController.
Implicit Types (self : DLFSController.t) (fs : disk) (us : list json).

Lemma add_user_appends self fs uid name email password role us :
  load_data fs "users.json" = Ok (JArr us) →
  let u := User.__dict__ (User.__init__ uid name email password role) in
  add_user self fs uid name email password role
  = Ok ({| users := JArr (us ++ [u]); items := items self;
           claims := claims self |},
        <["users.json" := Parses (JArr (us ++ [u]))]> fs).
Proof.
  intros Hload u. unfold add_user. rewrite Hload. simpl.
  unfold load_data, save_data. by rewrite lookup_insert_eq.
Qed.

Lemma add_user_stores_role self fs uid name email password role us :
  load_data fs "users.json" = Ok (JArr us) →
  account_added_with_role role
    (add_user self fs uid name email password role).
Proof.
  intros Hload. rewrite (add_user_appends _ _ _ _ _ _ _ us Hload).
  eexists _, _, us, _. split; [done|]. split; [done|].
  split; [by rewrite lookup_insert_eq|done].
Qed.

Lemma account_added_with_role_fun r r' res :
  account_added_with_role r res → account_added_with_role r' res → r = r'.
Proof.
  intros (s1 & f1 & us1 & u1 & -> & Hu1 & _ & Hr1).
  intros (s2 & f2 & us2 & u2 & [= <- <-] & Hu2 & _ & Hr2).
  rewrite Hu1 in Hu2. injection Hu2 as Hu2.
  apply app_inj_tail in Hu2 as [_ <-]. congruence.
Qed.

Lemma login_loop_first email password us :
  Forall is_record us →
  ∃ r, login_loop email password us = Ok r ∧
       first_such (credentials email password) us r.
Proof.
  induction 1 as [|u us [kv ->] _ (r & Hr & Hfirst)].
  - exists None. by split; [|constructor].
  - assert (Hskip : ¬ credentials email password (JObj kv) →
              ∃ r', Ok r = Ok r' ∧
                    first_such (credentials email password) (JObj kv :: us) r').
    { intros Hno. exists r. split; [done|]. destruct r as [x|]; simpl in *.
      - destruct Hfirst as (pre & post & -> & Hx & Hpre).
        exists (JObj kv :: pre), post.
        split; [done|]. split; [done|]. by constructor.
      - by constructor. }
    cbn [login_loop]. unfold Py.contains, Py.getitem. cbn [mbind result_bind].
    destruct (Py.dict_get "email" kv) as [e|] eqn:He; cycle 1.
    { rewrite bool_decide_eq_false_2 by (by intros [? ?]). simpl.
      rewrite Hr. apply Hskip. intros [Hc _]. simpl in Hc. congruence. }
    rewrite bool_decide_eq_true_2 by done. simpl.
    destruct (Py.dict_get "password" kv) as [p|] eqn:Hp; cycle 1.
    { rewrite bool_decide_eq_false_2 by (by intros [? ?]). simpl.
      rewrite Hr. apply Hskip. intros [_ Hc]. simpl in Hc. congruence. }
    rewrite bool_decide_eq_true_2 by done. simpl.
    destruct (Py.eq e (JStr email)) eqn:Ee; cycle 1.
    { rewrite Hr. apply Hskip. intros [Hc _]. simpl in Hc.
      apply eq_JStr_false in Ee. congruence. }
    destruct (Py.eq p (JStr password)) eqn:Ep; cycle 1.
    { rewrite Hr. apply Hskip. intros [_ Hc]. simpl in Hc.
      apply eq_JStr_false in Ep. congruence. }
    apply eq_JStr in Ee, Ep. subst e p.
    exists (Some (JObj kv)). split; [done|].
    exists [], us. by repeat split.
Qed.
End accounts.

(** C1, as the code has it: the controller's [add_user] stores the role
    it is given, whatever it is; the menu action [DLFSUI.add_user] is
    where a role is checked: it lowers the case of what was typed and
    passes [admin] on when that is [admin], and [user] in every other
    case. *)
Theorem add_user_role_checked_by_menu {Lw : Py.Lower} :
  ∀ (self : DLFSController.t) (fs : disk) (uid : json)
    (id name email password role : string) (us : list json),
    load_data fs "users.json" = Ok (JArr us) →
    account_added_with_role role
      (DLFSController.add_user self fs uid name email password role) ∧
    (Py.lower role = "admin" →
     account_added_with_role "admin"
       (DLFSUI.add_user self fs id name email password role)) ∧
    (Py.lower role ≠ "admin" →
     account_added_with_role "user"
       (DLFSUI.add_user self fs id name email password role)).
Proof.
  intros self fs uid id name email password role us Hload.
  split; [by eapply add_user_stores_role|].
  unfold DLFSUI.add_user. split.
  - intros ->. simpl. by eapply add_user_stores_role.
  - intros Hne. simpl.
    destruct (String.eqb (Py.lower role) "user") eqn:Eu.
    + apply String.eqb_eq in Eu. rewrite Eu. by eapply add_user_stores_role.
    + destruct (String.eqb (Py.lower role) "admin") eqn:Ea.
      * by apply String.eqb_eq in Ea.
      * by eapply add_user_stores_role.
Qed.

Lemma add_user_role_checked_by_menu_witness :
  load_data (bootstrap None) "users.json" = Ok seed_users ∧
  account_added_with_role "Admin"
    (DLFSController.add_user (DLFSController.mk seed_users (JArr []) (JArr []))
       (bootstrap None) (JInt 3) "X" "x@x.com" "pw" "Admin") ∧
  account_added_with_role "admin"
    (DLFSUI.add_user (Lw := known_lower)
       (DLFSController.mk seed_users (JArr []) (JArr []))
       (bootstrap None) "3" "X" "x@x.com" "pw" "Admin") ∧
  account_added_with_role "user"
    (DLFSUI.add_user (Lw := known_lower)
       (DLFSController.mk seed_users (JArr []) (JArr []))
       (bootstrap None) "3" "X" "x@x.com" "pw" "superuser").
Proof.
  split; [reflexivity|].
  split; [|split].
  - eapply (add_user_role_checked_by_menu (Lw := known_lower)
              _ _ (JInt 3) "3").
    reflexivity.
  - eapply (add_user_role_checked_by_menu (Lw := known_lower)
              _ _ (JInt 3) "3" "X" "x@x.com" "pw" "Admin");
      reflexivity.
  - eapply (add_user_role_checked_by_menu (Lw := known_lower)
              _ _ (JInt 3) "3" "X" "x@x.com" "pw" "superuser");
      [reflexivity|discriminate].
Defined.

(** C1, the claim as stated fails: on the freshly seeded store,
    [add_user(3, "X", "x@x.com", "pw", "superuser")] stores the role
    [superuser], not [user]. *)
Lemma add_user_keeps_invalid_role :
  account_added_with_role "superuser"
    (DLFSController.add_user (DLFSController.mk seed_users (JArr []) (JArr []))
       (bootstrap None) (JInt 3) "X" "x@x.com" "pw" "superuser") ∧
  ¬ account_added_with_role "user"
    (DLFSController.add_user (DLFSController.mk seed_users (JArr []) (JArr []))
       (bootstrap None) (JInt 3) "X" "x@x.com" "pw" "superuser").
Proof.
  assert (H : account_added_with_role "superuser"
    (DLFSController.add_user (DLFSController.mk seed_users (JArr []) (JArr []))
       (bootstrap None) (JInt 3) "X" "x@x.com" "pw" "superuser")).
  { by eapply add_user_stores_role. }
  split; [done|]. intros H'.
  by pose proof (account_added_with_role_fun _ _ _ H H').
Qed.

(** C6: over accounts that are records, [login] returns the first
    account, in the order of the collection, whose email and password
    both equal the given ones, and [None] when there is none; on the
    seeded accounts, [admin@dlfs.com] with [admin123] gives the admin and
    with [wrong] gives [None]. *)
Theorem login_first_match :
  (∀ (self : DLFSController.t) (email password : string) (us : list json),
     DLFSController.users self = JArr us →
     Forall is_record us →
     ∃ r, DLFSController.login self email password = Ok r ∧
          first_such (credentials email password) us r) ∧
  (∃ admin user self,
     DLFSController.__init__ (bootstrap None) = Ok self ∧
     DLFSController.users self = JArr [admin; user] ∧
     field "role" admin = Some (JStr "admin") ∧
     DLFSController.login self "admin@dlfs.com" "admin123" = Ok (Some admin) ∧
     DLFSController.login self "admin@dlfs.com" "wrong" = Ok None).
Proof.
  split.
  - intros self email password us Hus Hrec.
    unfold DLFSController.login. rewrite Hus. simpl.
    by apply login_loop_first.
  - eexists _, _, _. split; [reflexivity|]. by repeat split.
Qed.

Lemma login_first_match_witness :
  DLFSController.users (DLFSController.mk seed_users (JArr []) (JArr []))
    = seed_users ∧
  ∃ r, DLFSController.login (DLFSController.mk seed_users (JArr []) (JArr []))
         "User@dlfs.com" "user123" = Ok r ∧
       first_such (credentials "User@dlfs.com" "user123")
         [JObj [ ("id", JInt 1); ("name", JStr "Admin");
                 ("email", JStr "admin@dlfs.com");
                 ("password", JStr "admin123"); ("role", JStr "admin") ];
          JObj [ ("id", JInt 2); ("name", JStr "User");
                 ("email", JStr "User@dlfs.com");
                 ("password", JStr "user123"); ("role", JStr "user") ]] r.
Proof.
  split; [reflexivity|].
  apply (proj1 login_first_match
           (DLFSController.mk seed_users (JArr []) (JArr []))).
  - reflexivity.
  - repeat constructor; by eexists.
Defined.

(** ** Text: lower case and substrings *)

Section text.
Implicit Types (a b : ascii) (p q s t : string).

Lemma append_cons a s t : String a s +:+ t = String a (s +:+ t).
Proof. reflexivity. Qed.

Lemma code_lower_ascii a :
  N_of_ascii (Py.lower_ascii a) =
  (if (65 <=? N_of_ascii a) && (N_of_ascii a <=? 90)
   then N_of_ascii a + 32 else N_of_ascii a)%N.
Proof.
  unfold Py.lower_ascii.
  destruct ((65 <=? N_of_ascii a) && (N_of_ascii a <=? 90))%N eqn:E; [|done].
  apply andb_true_iff in E as [_ Hle%N.leb_le].
  apply N_ascii_embedding. lia.
Qed.

Lemma lower_ascii_ci a b :
  Py.lower_ascii a = Py.lower_ascii b ↔ ci_char a b.
Proof.
  unfold ci_char. split.
  - intros H. apply (f_equal N_of_ascii) in H. rewrite !code_lower_ascii in H.
    destruct (N.leb_spec 65 (N_of_ascii a)), (N.leb_spec (N_of_ascii a) 90),
      (N.leb_spec 65 (N_of_ascii b)), (N.leb_spec (N_of_ascii b) 90);
      simpl in H; lia.
  - intros H.
    rewrite <- (ascii_N_embedding (Py.lower_ascii a)),
            <- (ascii_N_embedding (Py.lower_ascii b)).
    f_equal. rewrite !code_lower_ascii.
    destruct (N.leb_spec 65 (N_of_ascii a)), (N.leb_spec (N_of_ascii a) 90),
      (N.leb_spec 65 (N_of_ascii b)), (N.leb_spec (N_of_ascii b) 90);
      simpl; lia.
Qed.

Lemma lower_same_letters s t :
  Py.lower_letters s = Py.lower_letters t ↔ same_letters s t.
Proof.
  revert t. induction s as [|a s IH]; intros [|b t]; simpl;
    try (split; [discriminate|tauto]); [tauto|].
  rewrite <- IH, <- lower_ascii_ci. split.
  - by intros [= -> ->].
  - by intros [-> ->].
Qed.

Lemma lower_append s t :
  Py.lower_letters (s +:+ t) = Py.lower_letters s +:+ Py.lower_letters t.
Proof.
  induction s as [|c s IH]; [done|].
  rewrite append_cons. simpl. by rewrite IH.
Qed.

Lemma lower_split s u v :
  Py.lower_letters s = u +:+ v →
  ∃ s1 s2, s = s1 +:+ s2 ∧ Py.lower_letters s1 = u ∧ Py.lower_letters s2 = v.
Proof.
  revert s. induction u as [|c u IH]; intros s H.
  - by exists EmptyString, s.
  - destruct s as [|a s]; [discriminate|].
    rewrite append_cons in H. simpl in H. injection H as Hc Hs.
    destruct (IH _ Hs) as (s1 & s2 & -> & <- & <-).
    exists (String a s1), s2. simpl. by rewrite Hc.
Qed.

Lemma startswith_spec p s :
  Py.startswith p s = true ↔ ∃ post, s = p +:+ post.
Proof.
  revert s. induction p as [|a p IH]; intros s; simpl.
  - split; [by exists s|done].
  - destruct s as [|b s].
    + split; [discriminate|by intros [? [=]]].
    + rewrite andb_true_iff, Ascii.eqb_eq, IH. split.
      * intros [-> [post ->]]. by exists post.
      * intros [post [= -> ->]]. split; [done|by exists post].
Qed.

Lemma str_in_spec q s :
  Py.str_in q s = true ↔ ∃ pre post, s = pre +:+ q +:+ post.
Proof.
  induction s as [|c s IH]; simpl; rewrite orb_true_iff, startswith_spec.
  - split.
    + intros [[post ->]|[=]]. by exists EmptyString, post.
    + intros ([|? pre] & post & H); [|discriminate].
      left. by exists post.
  - rewrite IH. split.
    + intros [[post ->]|(pre & post & ->)].
      * by exists EmptyString, post.
      * by exists (String c pre), post.
    + intros ([|c' pre] & post & H).
      * left. by exists post.
      * injection H as -> ->. right. by exists pre, post.
Qed.

Lemma str_in_occurs q s : Py.str_in q s = true ↔ occurs q s.
Proof. apply str_in_spec. Qed.

(** With the letters A-Z lowered on both sides, the substring test is the
    case-blind one. *)
Lemma str_in_lower_ci q s :
  Py.str_in (Py.lower_letters q) (Py.lower_letters s) = true ↔ ci_substring q s.
Proof.
  rewrite str_in_spec. unfold ci_substring. split.
  - intros (u & v & H).
    apply lower_split in H as (pre & rest & -> & <- & H).
    apply lower_split in H as (mid & post & -> & H & <-).
    exists pre, mid, post. split; [done|]. by apply lower_same_letters.
  - intros (pre & mid & post & -> & H%lower_same_letters).
    exists (Py.lower_letters pre), (Py.lower_letters post).
    by rewrite !lower_append, H.
Qed.

Context {Lw : Py.Lower}.

(** On ASCII text the test the searches run, [q.lower() in s.lower()], is
    the case-blind substring test. *)
Lemma occurs_lower_ascii q s :
  Py.is_ascii q = true → Py.is_ascii s = true →
  occurs (Py.lower q) (Py.lower s) ↔ ci_substring q s.
Proof.
  intros Hq Hs. rewrite !Py.lower_ascii_text by done.
  by rewrite <- str_in_occurs, str_in_lower_ci.
Qed.
End text.

(** ** Items *)

Section items.
Import DLFSController.
Implicit Types (self : DLFSController.t) (fs : disk) (its : list json).
Context {Lw : Py.Lower}.

Lemma pretty_four_digits (n : Z) :
  1000 ≤ n ≤ 9999 → four_digits n (pretty n).
Proof.
  intros Hn.
  assert (Hall : forallb
    (λ n : Z, (String.length (pretty n) =? 4)%nat &&
              bool_decide (decimal_value 0 (pretty n) = Some n))
    (seqZ 1000 9000) = true) by (vm_compute; reflexivity).
  rewrite forallb_forall in Hall.
  specialize (Hall n). rewrite <- list_elem_of_In, elem_of_seqZ in Hall.
  apply andb_true_iff in Hall as [Hlen Hval]; [|lia].
  split; [by apply Nat.eqb_eq|by apply bool_decide_eq_true in Hval].
Qed.

Lemma select_keeps (cond : json → result bool) (P : json → Prop) its :
  Forall (λ x, ∃ b : bool, cond x = Ok b ∧ (b = true ↔ P x)) its →
  ∃ r, select cond its = Ok r ∧ keeps P its r.
Proof.
  induction 1 as [|x its (b & Hb & HP) _ (r & Hr & Hkeeps)].
  - exists []. split; [done|constructor].
  - simpl. rewrite Hb, Hr. simpl. destruct b.
    + exists (x :: r). split; [done|]. constructor; [|done]. by apply HP.
    + exists r. split; [done|]. constructor; [|done].
      intros HPx. apply HP in HPx. discriminate.
Qed.

Lemma search_items_keeps fld self q its :
  items self = JArr its →
  Forall (text_field fld) its →
  ∃ r, search_items fld self q = Ok r ∧ keeps (field_matches fld q) its r.
Proof.
  intros Hits Htext. unfold search_items. rewrite Hits. simpl.
  apply select_keeps. eapply Forall_impl; [exact Htext|].
  intros item [s Hs]. simpl.
  rewrite (getitem_of_field _ _ _ Hs). simpl.
  eexists. split; [done|]. rewrite str_in_occurs. split.
  - intros Hci. by exists s.
  - intros (s' & Hs' & Hci). congruence.
Qed.

Lemma keeps_ext {A : Type} (P Q : A → Prop) (l r : list A) :
  Forall (λ x, P x ↔ Q x) l → keeps P l r → keeps Q l r.
Proof.
  intros HPQ Hk. induction Hk as [|x l r Hx _ IH|x l r Hx _ IH];
    [constructor|..]; apply Forall_cons in HPQ as [Hx' Hl].
  - apply keeps_take; [by apply Hx'|by apply IH].
  - apply keeps_skip; [by rewrite <- Hx'|by apply IH].
Qed.

(** Over ASCII text a search keeps the items in which the query occurs up
    to the case of letters. *)
Lemma search_items_keeps_letters fld self q its :
  items self = JArr its →
  Py.is_ascii q = true →
  Forall (ascii_field fld) its →
  ∃ r, search_items fld self q = Ok r ∧
       keeps (field_matches_letters fld q) its r.
Proof.
  intros Hits Hq Htext.
  destruct (search_items_keeps fld self q its Hits) as (r & Hr & Hk).
  { eapply Forall_impl; [exact Htext|]. intros item (s & Hs & _). by exists s. }
  exists r. split; [done|]. eapply keeps_ext; [|exact Hk].
  eapply Forall_impl; [exact Htext|]. intros item (s & Hs & Hascii).
  unfold field_matches, field_matches_letters. split.
  - intros (s' & Hs' & Hocc). exists s'. split; [done|].
    apply occurs_lower_ascii; [done|congruence|done].
  - intros (s' & Hs' & Hci). exists s'. split; [done|].
    apply occurs_lower_ascii; [done|congruence|done].
Qed.
End items.

(** C7: [report_item] appends to the items collection one record with
    the given name, description, location and type, the status
    [reported] and the id [ITEM-] followed by the four decimal digits of
    the number drawn in 1000..9999; it writes the collection to
    [items.json] and returns that id; the record has these six fields and
    no other, and the outcome is the same for every reporter id. *)
Theorem report_item_appends_reported :
  ∀ (self : DLFSController.t) (fs : disk) (drawn : Z)
    (name description location item_type : string) (its : list json),
    DLFSController.items self = JArr its →
    1000 ≤ drawn ≤ 9999 →
    ∃ digits item self' fs',
      four_digits drawn digits ∧
      item = JObj [ ("item_id", JStr ("ITEM-" +:+ digits));
                    ("name", JStr name);
                    ("description", JStr description);
                    ("location", JStr location);
                    ("item_type", JStr item_type);
                    ("status", JStr "reported") ] ∧
      self' = DLFSController.mk (DLFSController.users self)
                (JArr (its ++ [item])) (DLFSController.claims self) ∧
      fs' !! "items.json" = Some (Parses (JArr (its ++ [item]))) ∧
      ∀ user_id : json,
        DLFSController.report_item self fs drawn
          name description location item_type user_id
        = Ok ("ITEM-" +:+ digits, self', fs').
Proof.
  intros self fs drawn name description location item_type its Hits Hdrawn.
  exists (pretty drawn). eexists _, _, _.
  split; [by apply pretty_four_digits|].
  split; [reflexivity|]. split; [reflexivity|]. split; cycle 1.
  - intros user_id. unfold DLFSController.report_item. rewrite Hits.
    reflexivity.
  - unfold DLFSController.save_all, save_data.
    rewrite lookup_insert_ne by done. by rewrite lookup_insert_eq.
Qed.

Lemma report_item_appends_reported_witness :
  DLFSController.items (DLFSController.mk seed_users (JArr []) (JArr []))
    = JArr [] ∧
  1000 ≤ 4821 ≤ 9999 ∧
  ∃ digits item self' fs',
    four_digits 4821 digits ∧
    item = JObj [ ("item_id", JStr ("ITEM-" +:+ digits));
                  ("name", JStr "Wallet");
                  ("description", JStr "Black leather");
                  ("location", JStr "Library");
                  ("item_type", JStr "lost");
                  ("status", JStr "reported") ] ∧
    self' = DLFSController.mk seed_users (JArr ([] ++ [item])) (JArr []) ∧
    fs' !! "items.json" = Some (Parses (JArr ([] ++ [item]))) ∧
    ∀ user_id : json,
      DLFSController.report_item
        (DLFSController.mk seed_users (JArr []) (JArr [])) (bootstrap None)
        4821 "Wallet" "Black leather" "Library" "lost" user_id
      = Ok ("ITEM-" +:+ digits, self', fs').
Proof.
  split; [reflexivity|]. split; [lia|].
  apply (report_item_appends_reported
           (DLFSController.mk seed_users (JArr []) (JArr [])) (bootstrap None)
           4821 "Wallet" "Black leather" "Library" "lost" []).
  - reflexivity.
  - lia.
Defined.

(** C8, as the code has it: over items whose searched field is a text,
    each of the three searches returns exactly the items in whose name
    (location, type), lowered by [str.lower], the query lowered by
    [str.lower] occurs, in the order of the collection. When the query
    and the searched texts are ASCII, these are the items in whose name
    (location, type) the query occurs up to the case of letters. Once
    [Wallet] of type [lost] has been reported into an empty collection,
    searching names for [wall] returns that item alone, of type [lost]
    and status [reported]. *)
Theorem search_items_exact {Lw : Py.Lower} :
  (∀ (self : DLFSController.t) (query : string) (its : list json),
     DLFSController.items self = JArr its →
     (Forall (text_field "name") its →
      ∃ r, DLFSController.search_items_name self query = Ok r ∧
           keeps (field_matches "name" query) its r) ∧
     (Forall (text_field "location") its →
      ∃ r, DLFSController.search_items_location self query = Ok r ∧
           keeps (field_matches "location" query) its r) ∧
     (Forall (text_field "item_type") its →
      ∃ r, DLFSController.search_items_type self query = Ok r ∧
           keeps (field_matches "item_type" query) its r)) ∧
  (∀ (self : DLFSController.t) (query : string) (its : list json),
     DLFSController.items self = JArr its →
     Py.is_ascii query = true →
     (Forall (ascii_field "name") its →
      ∃ r, DLFSController.search_items_name self query = Ok r ∧
           keeps (field_matches_letters "name" query) its r) ∧
     (Forall (ascii_field "location") its →
      ∃ r, DLFSController.search_items_location self query = Ok r ∧
           keeps (field_matches_letters "location" query) its r) ∧
     (Forall (ascii_field "item_type") its →
      ∃ r, DLFSController.search_items_type self query = Ok r ∧
           keeps (field_matches_letters "item_type" query) its r)) ∧
  (∀ (self : DLFSController.t) (fs : disk) (drawn : Z)
     (description location : string) (uid : json),
     DLFSController.items self = JArr [] →
     ∃ id self' fs' item,
       DLFSController.report_item self fs drawn
         "Wallet" description location "lost" uid = Ok (id, self', fs') ∧
       DLFSController.items self' = JArr [item] ∧
       DLFSController.search_items_name self' "wall" = Ok [item] ∧
       field "name" item = Some (JStr "Wallet") ∧
       field "item_type" item = Some (JStr "lost") ∧
       field "status" item = Some (JStr "reported")).
Proof.
  split; [|split].
  - intros self query its Hits. repeat split; intros Htext;
      by apply search_items_keeps.
  - intros self query its Hits Hq. repeat split; intros Htext;
      by apply search_items_keeps_letters.
  - intros self fs drawn description location uid Hits.
    unfold DLFSController.report_item. rewrite Hits.
    eexists _, _, _, _. split; [reflexivity|]. split; [reflexivity|].
    split; [|by repeat split].
    unfold DLFSController.search_items_name, DLFSController.search_items.
    cbn [DLFSController.items Py.iter mbind result_bind DLFSController.select].
    unfold ReportedItem.__dict__. cbn.
    by rewrite !Py.lower_ascii_text.
Qed.

Lemma search_items_exact_witness :
  DLFSController.items
    (DLFSController.mk seed_users
       (JArr [ JObj [ ("item_id", JStr "ITEM-1000"); ("name", JStr "Red Scarf") ];
               JObj [ ("item_id", JStr "ITEM-1001"); ("name", JStr "Keys") ];
               JObj [ ("item_id", JStr "ITEM-1002"); ("name", JStr "scarf, blue") ] ])
       (JArr []))
  = JArr [ JObj [ ("item_id", JStr "ITEM-1000"); ("name", JStr "Red Scarf") ];
           JObj [ ("item_id", JStr "ITEM-1001"); ("name", JStr "Keys") ];
           JObj [ ("item_id", JStr "ITEM-1002"); ("name", JStr "scarf, blue") ] ] ∧
  Py.is_ascii "SCARF" = true ∧
  ∃ r, DLFSController.search_items_name (Lw := known_lower)
         (DLFSController.mk seed_users
            (JArr [ JObj [ ("item_id", JStr "ITEM-1000"); ("name", JStr "Red Scarf") ];
                    JObj [ ("item_id", JStr "ITEM-1001"); ("name", JStr "Keys") ];
                    JObj [ ("item_id", JStr "ITEM-1002"); ("name", JStr "scarf, blue") ] ])
            (JArr []))
         "SCARF" = Ok r ∧
       keeps (field_matches_letters "name" "SCARF")
         [ JObj [ ("item_id", JStr "ITEM-1000"); ("name", JStr "Red Scarf") ];
           JObj [ ("item_id", JStr "ITEM-1001"); ("name", JStr "Keys") ];
           JObj [ ("item_id", JStr "ITEM-1002"); ("name", JStr "scarf, blue") ] ] r.
Proof.
  split; [reflexivity|]. split; [reflexivity|].
  eapply (proj1 (proj2 (search_items_exact (Lw := known_lower)))).
  - reflexivity.
  - reflexivity.
  - repeat constructor; by eexists.
Defined.

(** C8, the claim as stated fails: the name [ΟΣ] contains the query [Σ]
    as it stands, so also up to case, yet searching names for [Σ] returns
    no item, whatever else [str.lower] does: the sigma that ends the name
    is lowered to the final sigma, the sigma of the query to the small
    sigma. What the search returns is not the items whose name contains
    the query up to case. *)
Lemma search_misses_final_sigma :
  let item :=
    JObj [ ("item_id", JStr "ITEM-1000"); ("name", JStr "ΟΣ");
           ("description", JStr "book"); ("location", JStr "Library");
           ("item_type", JStr "lost"); ("status", JStr "reported") ] in
  let self := DLFSController.mk seed_users (JArr [item]) (JArr []) in
  Py.str_in "Σ" "ΟΣ" = true ∧
  field_matches_letters "name" "Σ" item ∧
  (∀ L : Py.Lower, DLFSController.search_items_name self "Σ" = Ok []) ∧
  (∀ L : Py.Lower,
     ¬ ∃ r, DLFSController.search_items_name self "Σ" = Ok r ∧
            keeps (field_matches_letters "name" "Σ") [item] r).
Proof.
  intros item self.
  assert (Hin : field_matches_letters "name" "Σ" item).
  { exists "ΟΣ". split; [reflexivity|]. exists "Ο", "Σ", EmptyString.
    split; [reflexivity|]. cbn. unfold ci_char. by repeat split; left. }
  assert (Hnone : ∀ L : Py.Lower,
            DLFSController.search_items_name self "Σ" = Ok []).
  { intros L.
    unfold DLFSController.search_items_name, DLFSController.search_items.
    cbn [DLFSController.items Py.iter mbind result_bind DLFSController.select].
    cbn. by rewrite Py.lower_sigma, Py.lower_final_sigma. }
  split_and!; [reflexivity|exact Hin|exact Hnone|].
  intros L (r & Hr & Hk). rewrite Hnone in Hr. injection Hr as <-.
  inversion Hk; by subst.
Qed.

(** ** Claims and their approval *)

Section claims.
Import DLFSController.
Implicit Types (self : DLFSController.t) (fs : disk) (cs its : list json).

Lemma save_all_synced self fs : synced self (save_all self fs).
Proof.
  unfold synced, save_all, save_data. repeat split.
  - rewrite !lookup_insert_ne by done. by rewrite lookup_insert_eq.
  - rewrite lookup_insert_ne by done. by rewrite lookup_insert_eq.
  - by rewrite lookup_insert_eq.
Qed.

Lemma claim_item_appends self fs drawn uid iid cs :
  claims self = JArr cs →
  let c := Claim.__dict__ (Claim.__init__ drawn uid iid) in
  let self' := mk (users self) (items self) (JArr (cs ++ [c])) in
  claim_item self fs drawn uid iid
  = Ok ("CLM-" +:+ pretty drawn, self', save_all self' fs).
Proof. intros Hcs. unfold claim_item. by rewrite Hcs. Qed.

Lemma approve_loop_skip self fs cid i pre rest :
  Forall (other_claim cid) pre →
  approve_loop self fs cid i (pre ++ rest)
  = approve_loop self fs cid (i + length pre) rest.
Proof.
  intros Hpre. revert i.
  induction Hpre as [|c pre (v & Hv & Hne) _ IH]; intros i.
  - simpl. by rewrite Nat.add_0_r.
  - cbn [app approve_loop]. rewrite (getitem_of_field _ _ _ Hv). simpl.
    apply eq_JStr_false in Hne. rewrite Hne, IH. f_equal. lia.
Qed.

Lemma approve_loop_none self fs cid i cs :
  Forall (other_claim cid) cs →
  approve_loop self fs cid i cs = Ok (false, self, fs).
Proof.
  intros Hcs. rewrite <- (app_nil_r cs). by rewrite approve_loop_skip.
Qed.

Lemma approve_loop_outcome self fs cid i cs b self' fs' :
  approve_loop self fs cid i cs = Ok (b, self', fs') →
  (b = false ∧ self' = self ∧ fs' = fs) ∨
  (b = true ∧ users self' = users self ∧ fs' = save_all self' fs).
Proof.
  revert i. induction cs as [|c cs IH]; intros i; cbn [approve_loop].
  - intros [= <- <- <-]. by left.
  - intros (id & Hid & H)%bind_Ok.
    destruct (Py.eq id (JStr cid)); [|by eapply IH].
    apply bind_Ok in H as (c' & _ & H).
    apply bind_Ok in H as (its' & _ & H).
    injection H as <- <- <-. by right.
Qed.

Lemma mark_claimed_step c iid item :
  field "item_id" c = Some (JStr iid) →
  has_field "item_id" item →
  ∃ item', mark_claimed c item = Ok item' ∧ item_step iid item item'.
Proof.
  intros Hc [v Hv]. unfold mark_claimed.
  rewrite (getitem_of_field _ _ _ Hv), (getitem_of_field _ _ _ Hc).
  cbn [mbind result_bind].
  destruct (Py.eq v (JStr iid)) eqn:E.
  - apply eq_JStr in E. subst v.
    destruct (setitem_updated item "status" (JStr "claimed"))
      as (item' & Hset & Hupd); [by eapply field_is_record|].
    exists item'. split; [done|]. by left.
  - apply eq_JStr_false in E. exists item. split; [done|].
    right. split; [congruence|done].
Qed.

Lemma each_mark_claimed c iid its :
  field "item_id" c = Some (JStr iid) →
  Forall (has_field "item_id") its →
  ∃ its', Py.each (mark_claimed c) its = Ok its' ∧
          Forall2 (item_step iid) its its'.
Proof.
  intros Hc. induction 1 as [|item its Hitem _ (its' & Hits' & Hstep)].
  - exists []. by split; [|constructor].
  - destruct (mark_claimed_step c iid item Hc Hitem) as (item' & Hrun & Hone).
    cbn [Py.each]. rewrite Hrun, Hits'.
    exists (item' :: its'). split; [done|]. by constructor.
Qed.

Lemma approve_loop_hit self fs cid iid i c rest its :
  items self = JArr its →
  field "claim_id" c = Some (JStr cid) →
  field "item_id" c = Some (JStr iid) →
  Forall (has_field "item_id") its →
  ∃ c' its',
    updated "status" (JStr "approved") c c' ∧
    Forall2 (item_step iid) its its' ∧
    let self' := mk (users self) (JArr its') (Py.store (claims self) i c') in
    approve_loop self fs cid i (c :: rest) = Ok (true, self', save_all self' fs).
Proof.
  intros Hits Hcid Hiid Hwf.
  destruct (setitem_updated c "status" (JStr "approved"))
    as (c' & Hset & Hupd); [by eapply field_is_record|].
  assert (Hiid' : field "item_id" c' = Some (JStr iid)).
  { destruct Hupd as (_ & _ & Hother). by rewrite Hother. }
  destruct (each_mark_claimed c' iid its Hiid' Hwf) as (its' & Heach & Hstep).
  exists c', its'. split; [done|]. split; [done|].
  cbn [approve_loop]. rewrite (getitem_of_field _ _ _ Hcid).
  cbn [mbind result_bind].
  replace (Py.eq (JStr cid) (JStr cid)) with true
    by (symmetry; by apply eq_JStr).
  rewrite Hset. cbn [mbind result_bind]. rewrite Hits.
  unfold Py.for_each. by rewrite Heach.
Qed.

Lemma item_step_keeps_id iid item item' :
  item_step iid item item' →
  has_field "item_id" item → has_field "item_id" item'.
Proof.
  intros [[_ (_ & _ & Hother)]|[_ ->]]; [|done].
  unfold has_field. by rewrite Hother.
Qed.

Lemma item_step_same iid its its' :
  Forall2 (item_step iid) its its' →
  Forall (λ item, field "item_id" item ≠ Some (JStr iid)) its →
  its' = its.
Proof.
  induction 1 as [|item item' its its' Hstep _ IH]; [done|].
  intros [Hne Hrest]%Forall_cons. rewrite IH by done.
  by destruct Hstep as [[? _]|[_ ->]].
Qed.

(** The approval of the first claim that answers to [cid]. *)
Lemma approve_claim_hit self fs cid iid pre c post its :
  claims self = JArr (pre ++ c :: post) →
  items self = JArr its →
  Forall (other_claim cid) pre →
  field "claim_id" c = Some (JStr cid) →
  field "item_id" c = Some (JStr iid) →
  Forall (has_field "item_id") its →
  ∃ c' its',
    updated "status" (JStr "approved") c c' ∧
    Forall2 (item_step iid) its its' ∧
    let self' := mk (users self) (JArr its') (JArr (pre ++ c' :: post)) in
    approve_claim self fs cid = Ok (true, self', save_all self' fs).
Proof.
  intros Hcs Hits Hpre Hcid Hiid Hwf.
  destruct (approve_loop_hit self fs cid iid (0 + length pre) c post its)
    as (c' & its' & Hupd & Hstep & Hrun); try done.
  exists c', its'. split; [done|]. split; [done|].
  unfold approve_claim. rewrite Hcs. cbn [Py.iter mbind result_bind].
  rewrite approve_loop_skip by done. rewrite Hrun, Hcs.
  unfold Py.store. rewrite Nat.add_0_l.
  assert (Hput : <[length pre := c']> (pre ++ c :: post) = pre ++ c' :: post).
  { rewrite <- (Nat.add_0_r (length pre)). by rewrite insert_app_r. }
  by rewrite Hput.
Qed.

Lemma add_user_keeps_synced self fs uid name email password role self' fs' :
  synced self fs →
  add_user self fs uid name email password role = Ok (self', fs') →
  synced self' fs'.
Proof.
  intros (Hu & Hi & Hc) H. unfold add_user in H.
  apply bind_Ok in H as (us & Hload & H).
  apply bind_Ok in H as (us' & _ & H).
  apply bind_Ok in H as (us'' & Hload' & H).
  injection H as <- <-.
  unfold load_data, save_data in Hload'.
  rewrite lookup_insert_eq in Hload'. injection Hload' as <-.
  unfold synced, save_data; simpl. split_and!.
  - by rewrite lookup_insert_eq.
  - by rewrite lookup_insert_ne.
  - by rewrite lookup_insert_ne.
Qed.

Lemma report_item_keeps_synced self fs drawn name description location
    item_type uid id self' fs' :
  report_item self fs drawn name description location item_type uid
  = Ok (id, self', fs') →
  synced self' fs'.
Proof.
  intros H. unfold report_item in H.
  apply bind_Ok in H as (its' & _ & H). injection H as _ <- <-.
  apply save_all_synced.
Qed.

Lemma claim_item_keeps_synced self fs drawn uid iid cid self' fs' :
  claim_item self fs drawn uid iid = Ok (cid, self', fs') → synced self' fs'.
Proof.
  intros H. unfold claim_item in H.
  apply bind_Ok in H as (cs' & _ & H). injection H as _ <- <-.
  apply save_all_synced.
Qed.

Lemma approve_claim_keeps_synced self fs cid b self' fs' :
  synced self fs →
  approve_claim self fs cid = Ok (b, self', fs') → synced self' fs'.
Proof.
  intros Hsync H. unfold approve_claim in H.
  apply bind_Ok in H as (cs & _ & H).
  apply approve_loop_outcome in H as [(_ & -> & ->)|(_ & _ & ->)].
  - done.
  - apply save_all_synced.
Qed.
End claims.

(** ** The data model is an invariant of the store *)

Section invariant.
Import DLFSController.
Implicit Types (self : DLFSController.t) (fs : disk) (cs its : list json).

Lemma updated_field_other k v rec rec' k' :
  updated k v rec rec' → k' ≠ k → field k' rec' = field k' rec.
Proof. intros (_ & _ & H). apply H. Qed.

Lemma item_step_record iid item item' :
  item_step iid item item' → item_record item → item_record item'.
Proof.
  intros [[_ Hupd]|[_ ->]]; [|done].
  unfold item_record, has_field, text_field.
  by rewrite !(updated_field_other _ _ _ _ _ Hupd).
Qed.

Lemma updated_status_claim_record v c c' :
  updated "status" v c c' → claim_record c → claim_record c'.
Proof.
  intros Hupd. unfold claim_record, text_field.
  by rewrite !(updated_field_other _ _ _ _ _ Hupd).
Qed.

(** Either no claim answers to [cid], or there is a first one that does. *)
Lemma claims_split cid cs :
  Forall claim_record cs →
  Forall (other_claim cid) cs ∨
  ∃ pre c post iid,
    cs = pre ++ c :: post ∧ Forall (other_claim cid) pre ∧
    field "claim_id" c = Some (JStr cid) ∧
    field "item_id" c = Some (JStr iid).
Proof.
  induction 1 as [|c cs [[s Hs] [iid Hiid]] _ IH].
  - left. constructor.
  - destruct (decide (s = cid)) as [->|Hne].
    + right. by exists [], c, cs, iid.
    + assert (other_claim cid c) by (exists (JStr s); split; congruence).
      destruct IH as [Hall|(pre & c0 & post & iid0 & -> & Hpre & Hc0 & Hi0)].
      * left. by constructor.
      * right. exists (c :: pre), c0, post, iid0.
        split_and!; try done. by constructor.
Qed.

Lemma start_consistent :
  ∃ self, __init__ (bootstrap None) = Ok self ∧ consistent self (bootstrap None).
Proof.
  eexists. split; [reflexivity|]. split.
  - eexists _, _, _. split_and!; try reflexivity.
    + repeat constructor; by eexists.
    + constructor.
    + constructor.
  - by split_and!.
Qed.

Lemma add_user_consistent self fs uid name email password role :
  consistent self fs →
  ∃ self' fs', add_user self fs uid name email password role = Ok (self', fs') ∧
               consistent self' fs'.
Proof.
  intros [(us & its & cs & Hus & Hits & Hcs & Hwu & Hwi & Hwc) Hsync].
  assert (Hload : load_data fs "users.json" = Ok (JArr us)).
  { destruct Hsync as (Hu & _). unfold load_data. by rewrite Hu, Hus. }
  pose proof (add_user_appends self fs uid name email password role us Hload)
    as Hrun.
  eexists _, _. split; [exact Hrun|]. split.
  - eexists _, its, cs. split_and!; try done.
    apply Forall_app. split; [done|]. repeat constructor. by eexists.
  - by eapply add_user_keeps_synced.
Qed.

Lemma report_item_consistent self fs drawn name description location
    item_type uid :
  consistent self fs →
  ∃ id self' fs',
    report_item self fs drawn name description location item_type uid
    = Ok (id, self', fs') ∧
    consistent self' fs'.
Proof.
  intros [(us & its & cs & Hus & Hits & Hcs & Hwu & Hwi & Hwc) Hsync].
  assert (Hrun : ∃ id self' fs',
    report_item self fs drawn name description location item_type uid
    = Ok (id, self', fs') ∧ well_formed self').
  { unfold report_item. rewrite Hits. eexists _, _, _. split; [reflexivity|].
    eexists us, _, cs. split_and!; try done.
    apply Forall_app. split; [done|]. repeat constructor; by eexists. }
  destruct Hrun as (id & self' & fs' & Hrun & Hwf).
  exists id, self', fs'. split; [done|]. split; [done|].
  by eapply report_item_keeps_synced.
Qed.

Lemma claim_item_consistent self fs drawn uid iid :
  consistent self fs →
  ∃ cid self' fs',
    claim_item self fs drawn uid (JStr iid) = Ok (cid, self', fs') ∧
    consistent self' fs'.
Proof.
  intros [(us & its & cs & Hus & Hits & Hcs & Hwu & Hwi & Hwc) Hsync].
  pose proof (claim_item_appends self fs drawn uid (JStr iid) cs Hcs) as Hrun.
  eexists _, _, _. split; [exact Hrun|]. split.
  - eexists us, its, _. split_and!; try done.
    apply Forall_app. split; [done|]. repeat constructor; by eexists.
  - by eapply claim_item_keeps_synced.
Qed.

Lemma approve_claim_consistent self fs cid :
  consistent self fs →
  ∃ b self' fs',
    approve_claim self fs cid = Ok (b, self', fs') ∧ consistent self' fs'.
Proof.
  intros [(us & its & cs & Hus & Hits & Hcs & Hwu & Hwi & Hwc) Hsync].
  assert (Hrun : ∃ b self' fs',
    approve_claim self fs cid = Ok (b, self', fs') ∧ well_formed self').
  { destruct (claims_split cid cs Hwc)
      as [Hall|(pre & c & post & iid & -> & Hpre & Hc & Hi)].
    - exists false, self, fs. split.
      + unfold approve_claim. rewrite Hcs. simpl. by apply approve_loop_none.
      + by exists us, its, cs.
    - destruct (approve_claim_hit self fs cid iid pre c post its)
        as (c' & its' & Hupd & Hstep & Hrun); try done.
      { eapply Forall_impl; [exact Hwi|]. by intros item [? _]. }
      eexists _, _, _. split; [exact Hrun|].
      eexists us, its', _. split_and!; try done.
      + eapply Forall2_Forall_r; [exact Hstep|].
        eapply Forall_impl; [exact Hwi|].
        intros item Hitem item' Hone. by eapply item_step_record.
      + apply Forall_app in Hwc as [Hwpre [Hwc Hwpost]%Forall_cons].
        apply Forall_app. split; [done|]. constructor; [|done].
        by eapply updated_status_claim_record. }
  destruct Hrun as (b & self' & fs' & Hrun & Hwf).
  exists b, self', fs'. split; [done|]. split; [done|].
  by eapply approve_claim_keeps_synced.
Qed.
End invariant.

(** C3, as the code has it: when no claim already in the collection
    carries the id that [claim_item] generates (the ids are drawn at
    random and not checked against the existing ones), filing a claim
    appends a pending claim on the given user and item ids, whether or not
    an item has that id; approving the returned id then returns [True],
    sets that claim's status to [approved] and the status of every item
    with that id to [claimed], and leaves the items as they are when none
    has that id. *)
Theorem claim_then_approve :
  ∀ (self : DLFSController.t) (fs : disk) (drawn : Z) (uid : json)
    (iid : string) (cs its : list json),
    DLFSController.claims self = JArr cs →
    DLFSController.items self = JArr its →
    Forall (other_claim ("CLM-" +:+ pretty drawn)) cs →
    Forall (has_field "item_id") its →
    lifecycle self fs drawn uid iid.
Proof.
  intros self fs drawn uid iid cs its Hcs Hits Hfresh Hwf.
  pose proof (claim_item_appends self fs drawn uid (JStr iid) cs Hcs) as Hfile.
  simpl in Hfile.
  set (cid := "CLM-" +:+ pretty drawn) in *.
  set (c := JObj [("claim_id", JStr cid); ("user_id", uid);
                  ("item_id", JStr iid); ("status", JStr "pending")]) in *.
  set (self1 := DLFSController.mk _ _ _) in Hfile.
  destruct (approve_claim_hit self1 (DLFSController.save_all self1 fs)
              cid iid cs c [] its)
    as (c' & its' & Hupd & Hstep & Hrun); try done.
  exists cs, its, cid, self1, (DLFSController.save_all self1 fs), c.
  exists (DLFSController.mk (DLFSController.users self1) (JArr its')
            (JArr (cs ++ [c']))).
  eexists _, c', its'.
  split_and!; try done.
  by apply item_step_same.
Qed.

Lemma claim_then_approve_witness :
  DLFSController.claims
    (DLFSController.mk seed_users
       (JArr [ JObj [ ("item_id", JStr "ITEM-4821"); ("name", JStr "Wallet");
                      ("description", JStr "Black leather");
                      ("location", JStr "Library"); ("item_type", JStr "found");
                      ("status", JStr "reported") ] ])
       (JArr [ JObj [ ("claim_id", JStr "CLM-1111"); ("user_id", JInt 1);
                      ("item_id", JStr "ITEM-9000");
                      ("status", JStr "pending") ] ]))
  = JArr [ JObj [ ("claim_id", JStr "CLM-1111"); ("user_id", JInt 1);
                  ("item_id", JStr "ITEM-9000"); ("status", JStr "pending") ] ] ∧
  lifecycle
    (DLFSController.mk seed_users
       (JArr [ JObj [ ("item_id", JStr "ITEM-4821"); ("name", JStr "Wallet");
                      ("description", JStr "Black leather");
                      ("location", JStr "Library"); ("item_type", JStr "found");
                      ("status", JStr "reported") ] ])
       (JArr [ JObj [ ("claim_id", JStr "CLM-1111"); ("user_id", JInt 1);
                      ("item_id", JStr "ITEM-9000");
                      ("status", JStr "pending") ] ]))
    (bootstrap None) 2222 (JInt 2) "ITEM-4821".
Proof.
  split; [reflexivity|].
  eapply claim_then_approve.
  - reflexivity.
  - reflexivity.
  - repeat constructor. eexists. split; [reflexivity|discriminate].
  - repeat constructor. by eexists.
Defined.

(** C3, the claim as stated fails: a pending claim [CLM-1234] on
    [ITEM-1111] is in the collection; a claim on [ITEM-2222] is filed and
    the number drawn is 1234 again; approving the returned id returns
    [True], approves the older claim and marks [ITEM-1111] as claimed,
    while the new claim stays pending and [ITEM-2222] stays reported. *)
Lemma claim_then_approve_collision :
  (∃ self1 fs1 self2 fs2 older newer,
     DLFSController.claim_item
       (DLFSController.mk seed_users
          (JArr [ JObj [ ("item_id", JStr "ITEM-1111"); ("status", JStr "reported") ];
                  JObj [ ("item_id", JStr "ITEM-2222"); ("status", JStr "reported") ] ])
          (JArr [ JObj [ ("claim_id", JStr "CLM-1234"); ("user_id", JInt 1);
                         ("item_id", JStr "ITEM-1111");
                         ("status", JStr "pending") ] ]))
       (bootstrap None) 1234 (JInt 2) (JStr "ITEM-2222")
     = Ok ("CLM-1234", self1, fs1) ∧
     DLFSController.approve_claim self1 fs1 "CLM-1234" = Ok (true, self2, fs2) ∧
     DLFSController.claims self2 = JArr [older; newer] ∧
     field "item_id" older = Some (JStr "ITEM-1111") ∧
     field "status" older = Some (JStr "approved") ∧
     field "item_id" newer = Some (JStr "ITEM-2222") ∧
     field "status" newer = Some (JStr "pending") ∧
     DLFSController.items self2
     = JArr [ JObj [ ("item_id", JStr "ITEM-1111"); ("status", JStr "claimed") ];
              JObj [ ("item_id", JStr "ITEM-2222"); ("status", JStr "reported") ] ]) ∧
  ¬ lifecycle
      (DLFSController.mk seed_users
         (JArr [ JObj [ ("item_id", JStr "ITEM-1111"); ("status", JStr "reported") ];
                 JObj [ ("item_id", JStr "ITEM-2222"); ("status", JStr "reported") ] ])
         (JArr [ JObj [ ("claim_id", JStr "CLM-1234"); ("user_id", JInt 1);
                        ("item_id", JStr "ITEM-1111");
                        ("status", JStr "pending") ] ]))
      (bootstrap None) 1234 (JInt 2) "ITEM-2222".
Proof.
  split.
  { eexists _, _, _, _, _, _.
    split; [reflexivity|]. split; [reflexivity|]. by split_and!. }
  intros (cs & its & cid & self1 & fs1 & c & self2 & fs2 & c' & its' &
          Hcs & Hits & Hfile & -> & Hcs1 & _ & _ & _ & _ & Hpending &
          Happrove & Hcs2 & Hupd & _).
  injection Hcs as <-. injection Hits as <-.
  set (old := JObj [ ("claim_id", JStr "CLM-1234"); ("user_id", JInt 1);
                     ("item_id", JStr "ITEM-1111");
                     ("status", JStr "pending") ]) in *.
  match type of Hfile with
  | DLFSController.claim_item ?s ?f ?d ?u ?i = _ =>
      rewrite (claim_item_appends s f d u i [old] eq_refl) in Hfile
  end.
  injection Hfile as <- <-.
  injection Hcs1 as <-.
  match type of Happrove with
  | DLFSController.approve_claim ?s ?f ?k = _ =>
      destruct (approve_claim_hit s f k "ITEM-1111" [] old
                  [Claim.__dict__ (Claim.__init__ 1234 (JInt 2) (JStr "ITEM-2222"))]
                  [ JObj [ ("item_id", JStr "ITEM-1111"); ("status", JStr "reported") ];
                    JObj [ ("item_id", JStr "ITEM-2222"); ("status", JStr "reported") ] ])
        as (old' & its'' & _ & _ & Hrun);
        [reflexivity|reflexivity|constructor|reflexivity|reflexivity| |]
  end.
  { repeat constructor; by eexists. }
  rewrite Hrun in Happrove. injection Happrove as <- _.
  injection Hcs2 as _ <-.
  destruct Hupd as (_ & Hstatus & _). discriminate.
Qed.

(** C4: when every claim in the collection carries an id other than the
    given one, [approve_claim] returns [False], and the three collections
    and the files are what they were. *)
Theorem approve_claim_unknown_id :
  ∀ (self : DLFSController.t) (fs : disk) (claim_id : string) (cs : list json),
    DLFSController.claims self = JArr cs →
    Forall (other_claim claim_id) cs →
    DLFSController.approve_claim self fs claim_id = Ok (false, self, fs).
Proof.
  intros self fs claim_id cs Hcs Hother.
  unfold DLFSController.approve_claim. rewrite Hcs. simpl.
  by apply approve_loop_none.
Qed.

Lemma approve_claim_unknown_id_witness :
  DLFSController.approve_claim
    (DLFSController.mk seed_users
       (JArr [ JObj [ ("item_id", JStr "ITEM-4821"); ("status", JStr "reported") ] ])
       (JArr [ JObj [ ("claim_id", JStr "CLM-1111"); ("user_id", JInt 1);
                      ("item_id", JStr "ITEM-4821");
                      ("status", JStr "pending") ] ]))
    (bootstrap None) "CLM-0000"
  = Ok (false,
        DLFSController.mk seed_users
          (JArr [ JObj [ ("item_id", JStr "ITEM-4821"); ("status", JStr "reported") ] ])
          (JArr [ JObj [ ("claim_id", JStr "CLM-1111"); ("user_id", JInt 1);
                         ("item_id", JStr "ITEM-4821");
                         ("status", JStr "pending") ] ]),
        bootstrap None).
Proof.
  eapply approve_claim_unknown_id.
  - reflexivity.
  - repeat constructor. eexists. split; [reflexivity|discriminate].
Defined.

(** C9: if the three files hold the three collections before a call of
    [add_user], [report_item], [claim_item] or [approve_claim], they hold
    the three collections of the controller again when the call
    returns. *)
Theorem write_through :
  ∀ (self : DLFSController.t) (fs : disk),
    synced self fs →
    (∀ uid name email password role self' fs',
       DLFSController.add_user self fs uid name email password role
       = Ok (self', fs') → synced self' fs') ∧
    (∀ drawn name description location item_type uid id self' fs',
       DLFSController.report_item self fs drawn
         name description location item_type uid
       = Ok (id, self', fs') → synced self' fs') ∧
    (∀ drawn uid iid cid self' fs',
       DLFSController.claim_item self fs drawn uid iid
       = Ok (cid, self', fs') → synced self' fs') ∧
    (∀ claim_id b self' fs',
       DLFSController.approve_claim self fs claim_id
       = Ok (b, self', fs') → synced self' fs').
Proof.
  intros self fs Hsync. split_and!.
  - intros uid name email password role self' fs'.
    by apply add_user_keeps_synced.
  - intros drawn name description location item_type uid id self' fs'.
    apply report_item_keeps_synced.
  - intros drawn uid iid cid self' fs'. apply claim_item_keeps_synced.
  - intros claim_id b self' fs'. by apply approve_claim_keeps_synced.
Qed.

Lemma write_through_witness :
  synced (DLFSController.mk seed_users (JArr []) (JArr [])) (bootstrap None) ∧
  ∃ self1 fs1 cid self2 fs2,
    DLFSController.add_user
      (DLFSController.mk seed_users (JArr []) (JArr [])) (bootstrap None)
      (JInt 3) "X" "x@x.com" "pw" "user"
    = Ok (self1, fs1) ∧
    synced self1 fs1 ∧
    DLFSController.claim_item self1 fs1 2222 (JInt 3) (JStr "ITEM-4821")
    = Ok (cid, self2, fs2) ∧
    synced self2 fs2.
Proof.
  assert (H0 : synced (DLFSController.mk seed_users (JArr []) (JArr []))
                 (bootstrap None)) by (split_and!; reflexivity).
  split; [exact H0|].
  eexists _, _, _, _, _.
  assert (∀ A B C D : Prop,
            A → (A → B) → C → (B → C → D) → A ∧ B ∧ C ∧ D) as Hchain by tauto.
  apply Hchain.
  - reflexivity.
  - exact (proj1 (write_through _ _ H0) _ _ _ _ _ _ _).
  - reflexivity.
  - intros H1.
    exact (proj1 (proj2 (proj2 (write_through _ _ H1))) _ _ _ _ _ _).
Defined.

(** C10: [approve_claim] approves the first claim that carries the given
    id, whatever the status of that claim, and sets to [claimed] the
    status of every item whose id is the claim's item id, whatever the
    status of that item was; approving the same id once more returns
    [True] again and performs the same update again. *)
Theorem approve_claim_overrides_status :
  ∀ (self : DLFSController.t) (fs : disk) (claim_id iid : string)
    (pre post its : list json) (c : json),
    DLFSController.claims self = JArr (pre ++ c :: post) →
    DLFSController.items self = JArr its →
    Forall (other_claim claim_id) pre →
    field "claim_id" c = Some (JStr claim_id) →
    field "item_id" c = Some (JStr iid) →
    Forall (has_field "item_id") its →
    ∃ c1 its1 self1 fs1 c2 its2 self2 fs2,
      DLFSController.approve_claim self fs claim_id = Ok (true, self1, fs1) ∧
      DLFSController.claims self1 = JArr (pre ++ c1 :: post) ∧
      updated "status" (JStr "approved") c c1 ∧
      DLFSController.items self1 = JArr its1 ∧
      Forall2 (item_step iid) its its1 ∧
      DLFSController.approve_claim self1 fs1 claim_id = Ok (true, self2, fs2) ∧
      DLFSController.claims self2 = JArr (pre ++ c2 :: post) ∧
      updated "status" (JStr "approved") c1 c2 ∧
      DLFSController.items self2 = JArr its2 ∧
      Forall2 (item_step iid) its1 its2.
Proof.
  intros self fs claim_id iid pre post its c Hcs Hits Hpre Hcid Hiid Hwf.
  destruct (approve_claim_hit self fs claim_id iid pre c post its)
    as (c1 & its1 & Hupd1 & Hstep1 & Hrun1); try done.
  simpl in Hrun1.
  set (self1 := DLFSController.mk _ _ _) in Hrun1.
  assert (Hwf1 : Forall (has_field "item_id") its1).
  { eapply Forall2_Forall_r; [exact Hstep1|].
    eapply Forall_impl; [exact Hwf|].
    intros item Hitem item' Hstep. by eapply item_step_keeps_id. }
  destruct Hupd1 as (Hrec1 & Hstatus1 & Hother1).
  destruct (approve_claim_hit self1 (DLFSController.save_all self1 fs)
              claim_id iid pre c1 post its1)
    as (c2 & its2 & Hupd2 & Hstep2 & Hrun2); try done.
  { by rewrite Hother1. }
  { by rewrite Hother1. }
  eexists c1, its1, self1, _, c2, its2, _, _.
  split; [exact Hrun1|]. split; [done|]. split; [done|].
  split; [done|]. split; [done|]. split; [exact Hrun2|]. by split_and!.
Qed.

Lemma approve_claim_overrides_status_witness :
  ∃ c1 its1 self1 fs1 c2 its2 self2 fs2,
    DLFSController.approve_claim
      (DLFSController.mk seed_users
         (JArr [ JObj [ ("item_id", JStr "ITEM-4821"); ("status", JStr "returned") ];
                 JObj [ ("item_id", JStr "ITEM-7000"); ("status", JStr "reported") ] ])
         (JArr [ JObj [ ("claim_id", JStr "CLM-1111"); ("user_id", JInt 1);
                        ("item_id", JStr "ITEM-7000");
                        ("status", JStr "pending") ];
                 JObj [ ("claim_id", JStr "CLM-2222"); ("user_id", JInt 2);
                        ("item_id", JStr "ITEM-4821");
                        ("status", JStr "approved") ] ]))
      (bootstrap None) "CLM-2222"
    = Ok (true, self1, fs1) ∧
    DLFSController.claims self1
    = JArr ([ JObj [ ("claim_id", JStr "CLM-1111"); ("user_id", JInt 1);
                     ("item_id", JStr "ITEM-7000");
                     ("status", JStr "pending") ] ] ++ c1 :: []) ∧
    updated "status" (JStr "approved")
      (JObj [ ("claim_id", JStr "CLM-2222"); ("user_id", JInt 2);
              ("item_id", JStr "ITEM-4821"); ("status", JStr "approved") ]) c1 ∧
    DLFSController.items self1 = JArr its1 ∧
    Forall2 (item_step "ITEM-4821")
      [ JObj [ ("item_id", JStr "ITEM-4821"); ("status", JStr "returned") ];
        JObj [ ("item_id", JStr "ITEM-7000"); ("status", JStr "reported") ] ]
      its1 ∧
    DLFSController.approve_claim self1 fs1 "CLM-2222" = Ok (true, self2, fs2) ∧
    DLFSController.claims self2
    = JArr ([ JObj [ ("claim_id", JStr "CLM-1111"); ("user_id", JInt 1);
                     ("item_id", JStr "ITEM-7000");
                     ("status", JStr "pending") ] ] ++ c2 :: []) ∧
    updated "status" (JStr "approved") c1 c2 ∧
    DLFSController.items self2 = JArr its2 ∧
    Forall2 (item_step "ITEM-4821") its1 its2.
Proof.
  eapply approve_claim_overrides_status.
  - reflexivity.
  - reflexivity.
  - repeat constructor. eexists. split; [reflexivity|discriminate].
  - reflexivity.
  - reflexivity.
  - repeat constructor; by eexists.
Defined.

(** ** Further properties of the store *)

Section store_more.
Import DLFSController.
Implicit Types (self : DLFSController.t) (fs : disk) (o : op).

Lemma synced_init self fs : synced self fs → __init__ fs = Ok self.
Proof.
  intros (Hu & Hi & Hc). unfold __init__, load_data.
  rewrite Hu, Hi, Hc. by destruct self.
Qed.

Lemma run_op_keeps_synced o self fs self' fs' :
  synced self fs → run_op o self fs = Ok (self', fs') → synced self' fs'.
Proof.
  intros Hsync H. destruct o; simpl in H.
  - by eapply add_user_keeps_synced.
  - apply bind_Ok in H as ([[id s] f] & Hrun & [= <- <-]).
    by eapply report_item_keeps_synced.
  - apply bind_Ok in H as ([[id s] f] & Hrun & [= <- <-]).
    by eapply claim_item_keeps_synced.
  - apply bind_Ok in H as ([[b s] f] & Hrun & [= <- <-]).
    by eapply approve_claim_keeps_synced.
Qed.

Lemma run_op_consistent o self fs :
  consistent self fs →
  ∃ self' fs', run_op o self fs = Ok (self', fs') ∧ consistent self' fs'.
Proof.
  intros Hcons. destruct o; simpl.
  - by apply add_user_consistent.
  - destruct (report_item_consistent self fs drawn name description location
                item_type user_id Hcons) as (id & s & f & -> & ?).
    by exists s, f.
  - destruct (claim_item_consistent self fs drawn user_id item_id Hcons)
      as (cid & s & f & -> & ?).
    by exists s, f.
  - destruct (approve_claim_consistent self fs claim_id Hcons)
      as (b & s & f & -> & ?).
    by exists s, f.
Qed.
End store_more.

(** X1: when the files hold the collections of a controller and one of
    the four mutating operations returns, a controller constructed
    afterwards from the files holds exactly the collections of the first:
    nothing the call did is lost by a restart. *)
Theorem restart_recovers_store :
  ∀ (o : op) (self self' : DLFSController.t) (fs fs' : disk),
    synced self fs →
    run_op o self fs = Ok (self', fs') →
    DLFSController.__init__ fs' = Ok self'.
Proof.
  intros o self self' fs fs' Hsync Hrun.
  apply synced_init. by eapply run_op_keeps_synced.
Qed.

Lemma restart_recovers_store_witness :
  synced (DLFSController.mk seed_users (JArr []) (JArr [])) (bootstrap None) ∧
  ∃ self' fs',
    run_op (ReportItem 4821 "Wallet" "Black leather" "Library" "lost" (JInt 2))
      (DLFSController.mk seed_users (JArr []) (JArr [])) (bootstrap None)
    = Ok (self', fs') ∧
    DLFSController.__init__ fs' = Ok self'.
Proof.
  assert (H0 : synced (DLFSController.mk seed_users (JArr []) (JArr []))
                 (bootstrap None)) by (split_and!; reflexivity).
  split; [exact H0|]. eexists _, _.
  assert (∀ A B : Prop, A → (A → B) → A ∧ B) as Hchain by tauto.
  apply Hchain; [reflexivity|].
  exact (restart_recovers_store _ _ _ _ _ H0).
Defined.

(** X2: from a store that holds only records of the data model and whose
    files hold its collections, every sequence of calls of the four
    mutating operations, with any arguments and any numbers drawn, runs
    to its end without raising, and the store it leaves is again of that
    kind; the store of the first run is such a store. *)
Theorem calls_never_raise :
  ∀ (os : list op) (self : DLFSController.t) (fs : disk),
    consistent self fs →
    ∃ self' fs', run_ops os self fs = Ok (self', fs') ∧ consistent self' fs'.
Proof.
  induction os as [|o os IH]; intros self fs Hcons.
  - by exists self, fs.
  - destruct (run_op_consistent o self fs Hcons) as (s & f & Hrun & Hcons').
    destruct (IH s f Hcons') as (s' & f' & Hrest & Hend).
    exists s', f'. split; [|done]. simpl. by rewrite Hrun.
Qed.

Lemma calls_never_raise_witness :
  consistent (DLFSController.mk seed_users (JArr []) (JArr [])) (bootstrap None) ∧
  ∃ self' fs',
    run_ops [ ReportItem 4821 "Wallet" "Black leather" "Library" "found" (JInt 2);
              ClaimItem 2222 (JInt 2) "ITEM-4821";
              AddUser (JStr "3") "X" "x@x.com" "pw" "superuser";
              ApproveClaim "CLM-2222";
              ApproveClaim "CLM-0000" ]
      (DLFSController.mk seed_users (JArr []) (JArr [])) (bootstrap None)
    = Ok (self', fs') ∧
    consistent self' fs'.
Proof.
  assert (H0 : consistent (DLFSController.mk seed_users (JArr []) (JArr []))
                 (bootstrap None)).
  { split.
    - eexists _, _, _. split_and!; try reflexivity.
      + repeat constructor; by eexists.
      + constructor.
      + constructor.
    - split_and!; reflexivity. }
  split; [exact H0|]. by apply calls_never_raise.
Defined.

Section store_compose.
Import DLFSController.
Implicit Types (self : DLFSController.t) (fs : disk) (o : op).

Lemma app_singleton_neq {A : Type} (l : list A) (x : A) : l ++ [x] ≠ l.
Proof.
  intros H. apply (f_equal length) in H. rewrite length_app in H.
  simpl in H. lia.
Qed.

Lemma save_all_users self fs :
  load_data (save_all self fs) "users.json" = Ok (users self).
Proof. unfold load_data. by destruct (save_all_synced self fs) as (-> & _). Qed.

Lemma filing_saves_users o self fs self' fs' :
  match o with
  | ReportItem _ _ _ _ _ _ | ClaimItem _ _ _ => True
  | _ => False
  end →
  run_op o self fs = Ok (self', fs') →
  load_data fs' "users.json" = Ok (users self).
Proof.
  intros Ho H. destruct o; try done; simpl in H.
  - apply bind_Ok in H as ([[id s] f] & Hrun & [= <- <-]).
    unfold report_item in Hrun.
    apply bind_Ok in Hrun as (its' & _ & [= _ <- <-]).
    by rewrite save_all_users.
  - apply bind_Ok in H as ([[id s] f] & Hrun & [= <- <-]).
    unfold claim_item in Hrun.
    apply bind_Ok in Hrun as (cs' & _ & [= _ <- <-]).
    by rewrite save_all_users.
Qed.

Lemma add_user_on_list self fs uid name email password role us :
  let u := User.__dict__ (User.__init__ uid name email password role) in
  add_user self (<["users.json" := Parses (JArr us)]> fs)
    uid name email password role
  = Ok (mk (JArr (us ++ [u])) (items self) (claims self),
        <["users.json" := Parses (JArr (us ++ [u]))]> fs).
Proof.
  intros u.
  rewrite (add_user_appends _ _ _ _ _ _ _ us)
    by (unfold load_data; by rewrite lookup_insert_eq).
  by rewrite insert_insert_eq.
Qed.
End store_compose.

(** X3: two controllers over the same files. When an account is added
    through one of them and then an item is reported or a claim is filed
    through another one that was constructed before, the second call
    writes its own, older, users collection back: the account that was in
    [users.json] after the first call is no longer there after the
    second. *)
Theorem stale_controller_erases_account :
  ∀ (a b a' b' : DLFSController.t) (fs fs1 fs2 : disk) (uid : json)
    (name email password role : string) (o : op),
    synced b fs →
    DLFSController.add_user a fs uid name email password role = Ok (a', fs1) →
    match o with
    | ReportItem _ _ _ _ _ _ | ClaimItem _ _ _ => True
    | _ => False
    end →
    run_op o b fs1 = Ok (b', fs2) →
    load_data fs1 "users.json" ≠ load_data fs "users.json" ∧
    load_data fs2 "users.json" = load_data fs "users.json".
Proof.
  intros a b a' b' fs fs1 fs2 uid name email password role o
    (Hu & _ & _) Hadd Ho Hrun.
  assert (Hload : load_data fs "users.json" = Ok (DLFSController.users b))
    by (unfold load_data; by rewrite Hu).
  split.
  - unfold DLFSController.add_user in Hadd.
    apply bind_Ok in Hadd as (v & Hv & Hadd).
    apply bind_Ok in Hadd as (v' & Happ & Hadd).
    apply bind_Ok in Hadd as (v'' & _ & [= _ <-]).
    destruct v as [| | | |us|]; try discriminate. injection Happ as <-.
    unfold load_data at 1, save_data. rewrite lookup_insert_eq, Hv.
    intros [= H]. by apply app_singleton_neq in H.
  - rewrite Hload. by eapply filing_saves_users.
Qed.

Lemma stale_controller_erases_account_witness :
  synced (DLFSController.mk seed_users (JArr []) (JArr [])) (bootstrap None) ∧
  ∃ a' fs1 b' fs2,
    DLFSController.add_user
      (DLFSController.mk seed_users (JArr []) (JArr [])) (bootstrap None)
      (JStr "3") "X" "x@x.com" "pw" "user" = Ok (a', fs1) ∧
    run_op (ReportItem 4821 "Wallet" "Black leather" "Library" "lost" (JInt 2))
      (DLFSController.mk seed_users (JArr []) (JArr [])) fs1 = Ok (b', fs2) ∧
    load_data fs1 "users.json" ≠ load_data (bootstrap None) "users.json" ∧
    load_data fs2 "users.json" = load_data (bootstrap None) "users.json".
Proof.
  assert (H0 : synced (DLFSController.mk seed_users (JArr []) (JArr []))
                 (bootstrap None)) by (split_and!; reflexivity).
  split; [exact H0|]. eexists _, _, _, _.
  assert (∀ A B C : Prop, A → B → (A → B → C) → A ∧ B ∧ C) as Hchain by tauto.
  apply Hchain; [reflexivity|reflexivity|].
  intros Hadd Hrun.
  exact (stale_controller_erases_account _ _ _ _ _ _ _ _ _ _ _ _
           (ReportItem 4821 "Wallet" "Black leather" "Library" "lost" (JInt 2))
           H0 Hadd I Hrun).
Defined.

(** X4: [add_user] works from the users file, not from the users the
    controller holds: on a file that parses to a list it appends to that
    list, on a file that parses to anything else it raises
    AttributeError, on a file that does not parse it starts again from the
    empty list, so that the file then holds the new account alone, on a
    file whose bytes are not text it raises UnicodeDecodeError, and
    without the file it raises FileNotFoundError; the controller's own
    users collection plays no part. *)
Theorem add_user_follows_disk :
  ∀ (self : DLFSController.t) (fs : disk) (uid : json)
    (name email password role : string),
    let u := User.__dict__ (User.__init__ uid name email password role) in
    (∀ v : json,
       DLFSController.add_user self (<["users.json" := Parses v]> fs)
         uid name email password role
       = match v with
         | JArr us =>
             Ok (DLFSController.mk (JArr (us ++ [u]))
                   (DLFSController.items self) (DLFSController.claims self),
                 <["users.json" := Parses (JArr (us ++ [u]))]> fs)
         | _ => Raise AttributeError
         end) ∧
    DLFSController.add_user self (<["users.json" := Unparseable]> fs)
      uid name email password role
    = Ok (DLFSController.mk (JArr [u])
            (DLFSController.items self) (DLFSController.claims self),
          <["users.json" := Parses (JArr [u])]> fs) ∧
    DLFSController.add_user self (<["users.json" := Undecodable]> fs)
      uid name email password role
    = Raise UnicodeDecodeError ∧
    DLFSController.add_user self (delete "users.json" fs)
      uid name email password role
    = Raise FileNotFoundError.
Proof.
  intros self fs uid name email password role u. split_and!.
  - intros v. destruct v as [| | | |us|]; try apply add_user_on_list;
      unfold DLFSController.add_user, load_data;
      by rewrite lookup_insert_eq.
  - rewrite (add_user_appends _ _ _ _ _ _ _ [])
      by (unfold load_data; by rewrite lookup_insert_eq).
    by rewrite insert_insert_eq.
  - unfold DLFSController.add_user, load_data. by rewrite lookup_insert_eq.
  - unfold DLFSController.add_user, load_data. by rewrite lookup_delete_eq.
Qed.

Section search_more.
Import DLFSController.
Implicit Types (self : DLFSController.t) (its : list json) (q fld : string).
Context {Lw : Py.Lower}.

Lemma select_sublist (cond : json → result bool) its r :
  select cond its = Ok r → r `sublist_of` its.
Proof.
  revert r. induction its as [|x its IH]; intros r; simpl.
  - intros [= <-]. constructor.
  - intros (b & _ & H)%bind_Ok. apply bind_Ok in H as (r' & Hr' & [= <-]).
    destruct b; [apply sublist_skip|apply sublist_cons]; by apply IH.
Qed.

Lemma select_raises (cond : json → result bool) pre bad post e :
  Forall (λ x, ∃ b, cond x = Ok b) pre →
  cond bad = Raise e →
  select cond (pre ++ bad :: post) = Raise e.
Proof.
  intros Hpre Hbad. induction Hpre as [|x pre [b Hb] _ IH]; simpl.
  - by rewrite Hbad.
  - by rewrite Hb, IH.
Qed.

Lemma search_items_raises fld q self pre bad post e :
  items self = JArr (pre ++ bad :: post) →
  Forall (text_field fld) pre →
  (v ← Py.getitem bad fld; s ← Py.str_lower v; Ok (Py.str_in (Py.lower q) s))
  = Raise e →
  search_items fld self q = Raise e.
Proof.
  intros Hits Hpre Hbad. unfold search_items. rewrite Hits. simpl.
  apply select_raises; [|done].
  eapply Forall_impl; [exact Hpre|]. intros item [s Hs]. simpl.
  rewrite (getitem_of_field _ _ _ Hs). by eexists.
Qed.

Lemma occurs_lower_empty s : occurs (Py.lower EmptyString) (Py.lower s).
Proof.
  rewrite (Py.lower_ascii_text EmptyString) by done.
  by exists EmptyString, (Py.lower s).
Qed.

Lemma keeps_all {A : Type} (P : A → Prop) (l r : list A) :
  Forall P l → keeps P l r → r = l.
Proof.
  intros Hall Hkeeps. induction Hkeeps as [|x l r _ _ IH|x l r Hno _ _].
  - done.
  - apply Forall_cons in Hall as [_ Hall]. by rewrite IH.
  - by apply Forall_cons in Hall as [? _].
Qed.
End search_more.

(** X5: what a search returns is a subsequence of the items collection:
    items of the collection, in their order, none twice; and with the
    empty text as query a search over items whose searched field is a
    text returns the whole collection. *)
Theorem search_within_items {Lw : Py.Lower} :
  ∀ (fld : string) (self : DLFSController.t) (its : list json),
    DLFSController.items self = JArr its →
    (∀ q r, DLFSController.search_items fld self q = Ok r → r `sublist_of` its) ∧
    (Forall (text_field fld) its →
     DLFSController.search_items fld self EmptyString = Ok its).
Proof.
  intros fld self its Hits. split.
  - intros q r H. unfold DLFSController.search_items in H.
    rewrite Hits in H. simpl in H. by eapply select_sublist.
  - intros Htext.
    destruct (search_items_keeps fld self EmptyString its Hits Htext)
      as (r & -> & Hkeeps).
    f_equal. eapply keeps_all; [|exact Hkeeps].
    eapply Forall_impl; [exact Htext|].
    intros item [s Hs]. exists s. split; [done|apply occurs_lower_empty].
Qed.

Lemma search_within_items_witness :
  DLFSController.items
    (DLFSController.mk seed_users
       (JArr [ JObj [ ("item_id", JStr "ITEM-1000"); ("name", JStr "Red Scarf") ];
               JObj [ ("item_id", JStr "ITEM-1001"); ("name", JStr "Keys") ] ])
       (JArr []))
  = JArr [ JObj [ ("item_id", JStr "ITEM-1000"); ("name", JStr "Red Scarf") ];
           JObj [ ("item_id", JStr "ITEM-1001"); ("name", JStr "Keys") ] ] ∧
  DLFSController.search_items_name (Lw := known_lower)
    (DLFSController.mk seed_users
       (JArr [ JObj [ ("item_id", JStr "ITEM-1000"); ("name", JStr "Red Scarf") ];
               JObj [ ("item_id", JStr "ITEM-1001"); ("name", JStr "Keys") ] ])
       (JArr []))
    EmptyString
  = Ok [ JObj [ ("item_id", JStr "ITEM-1000"); ("name", JStr "Red Scarf") ];
         JObj [ ("item_id", JStr "ITEM-1001"); ("name", JStr "Keys") ] ].
Proof.
  split; [reflexivity|].
  eapply (search_within_items (Lw := known_lower) "name").
  - reflexivity.
  - repeat constructor; by eexists.
Defined.

(** X6: a search stops at the first item it cannot read: when the items
    before it carry the searched field as a text, an item that is a record
    without that field makes the search raise KeyError, one whose field is
    not a text makes it raise AttributeError, and one that is not a record
    makes it raise TypeError, whatever the query and whatever follows. *)
Theorem search_raises_on_unreadable_item {Lw : Py.Lower} :
  ∀ (fld q : string) (self : DLFSController.t) (pre post : list json)
    (bad : json),
    DLFSController.items self = JArr (pre ++ bad :: post) →
    Forall (text_field fld) pre →
    (is_record bad → field fld bad = None →
     DLFSController.search_items fld self q = Raise KeyError) ∧
    (∀ v, field fld bad = Some v → (∀ s, v ≠ JStr s) →
     DLFSController.search_items fld self q = Raise AttributeError) ∧
    (¬ is_record bad →
     DLFSController.search_items fld self q = Raise TypeError).
Proof.
  intros fld q self pre post bad Hits Hpre. split_and!.
  - intros [kv ->] Hnone. eapply search_items_raises; [done..|].
    simpl in *. by rewrite Hnone.
  - intros v Hv Hnotext. eapply search_items_raises; [done..|].
    rewrite (getitem_of_field _ _ _ Hv). simpl.
    destruct v as [| | |s| |]; try done. by destruct (Hnotext s).
  - intros Hnorec. eapply search_items_raises; [done..|].
    destruct bad as [| | | | |kv]; try done. destruct Hnorec. by eexists.
Qed.

Lemma search_raises_on_unreadable_item_witness :
  DLFSController.search_items_name (Lw := known_lower)
    (DLFSController.mk seed_users
       (JArr [ JObj [ ("item_id", JStr "ITEM-1000"); ("name", JStr "Red Scarf") ];
               JObj [ ("item_id", JStr "ITEM-1001") ];
               JInt 7 ])
       (JArr []))
    "scarf"
  = Raise KeyError.
Proof.
  eapply (search_raises_on_unreadable_item (Lw := known_lower) "name" "scarf" _
            [ JObj [ ("item_id", JStr "ITEM-1000"); ("name", JStr "Red Scarf") ] ]
            [ JInt 7 ]
            (JObj [ ("item_id", JStr "ITEM-1001") ])).
  - reflexivity.
  - repeat constructor. by eexists.
  - by eexists.
  - reflexivity.
Defined.

Section approve_more.
Import DLFSController.
Implicit Types (self : DLFSController.t) (fs : disk) (cs its : list json).

Lemma dict_set_twice k v kv :
  Py.dict_set k v (Py.dict_set k v kv) = Py.dict_set k v kv.
Proof.
  induction kv as [|[k' v'] kv IH]; simpl.
  - by rewrite String.eqb_refl.
  - destruct (String.eqb k' k) eqn:E; simpl; rewrite E; [done|by rewrite IH].
Qed.

Lemma set_status_twice v rec : set_status v (set_status v rec) = set_status v rec.
Proof. destruct rec; try done. simpl. by rewrite dict_set_twice. Qed.

Lemma field_set_status_other k v rec :
  k ≠ "status" → field k (set_status v rec) = field k rec.
Proof. intros Hne. destruct rec; try done. simpl. by apply dict_get_set_ne. Qed.

Lemma setitem_set_status v rec :
  is_record rec → Py.setitem rec "status" (JStr v) = Ok (set_status v rec).
Proof. by intros [kv ->]. Qed.

Lemma each_mark_claimed_exact c iid its :
  field "item_id" c = Some (JStr iid) →
  Forall (has_field "item_id") its →
  Py.each (mark_claimed c) its = Ok (claimed_items iid its).
Proof.
  intros Hc. induction 1 as [|item its [v Hv] _ IH]; [done|].
  simpl. rewrite IH. unfold mark_claimed, has_item_id.
  rewrite (getitem_of_field _ _ _ Hv), (getitem_of_field _ _ _ Hc), Hv.
  simpl. destruct (Py.eq v (JStr iid)); [|done].
  by rewrite setitem_set_status by (by eapply field_is_record).
Qed.

Lemma claimed_items_twice iid its :
  claimed_items iid (claimed_items iid its) = claimed_items iid its.
Proof.
  unfold claimed_items. rewrite map_map. apply map_ext. intros item.
  destruct (has_item_id iid item) eqn:E; [|by rewrite E].
  assert (has_item_id iid (set_status "claimed" item) = true) as ->.
  { unfold has_item_id in *. by rewrite field_set_status_other. }
  apply set_status_twice.
Qed.

Lemma claimed_items_has_id iid its :
  Forall (has_field "item_id") its →
  Forall (has_field "item_id") (claimed_items iid its).
Proof.
  intros H. apply Forall_map. eapply Forall_impl; [exact H|].
  intros item Hitem. simpl. destruct (has_item_id iid item); [|done].
  unfold has_field. by rewrite field_set_status_other.
Qed.

Lemma save_all_twice self fs : save_all self (save_all self fs) = save_all self fs.
Proof.
  unfold save_all, save_data. apply map_eq. intros k.
  rewrite !lookup_insert. by repeat case_decide.
Qed.

(** The approval of the first claim that answers to [cid], as an equation. *)
Lemma approve_claim_exact self fs cid iid pre c post its :
  claims self = JArr (pre ++ c :: post) →
  items self = JArr its →
  Forall (other_claim cid) pre →
  field "claim_id" c = Some (JStr cid) →
  field "item_id" c = Some (JStr iid) →
  Forall (has_field "item_id") its →
  let self' := mk (users self) (JArr (claimed_items iid its))
                  (JArr (pre ++ set_status "approved" c :: post)) in
  approve_claim self fs cid = Ok (true, self', save_all self' fs).
Proof.
  intros Hcs Hits Hpre Hcid Hiid Hwf. simpl.
  unfold approve_claim. rewrite Hcs. cbn [Py.iter mbind result_bind].
  rewrite approve_loop_skip by done. cbn [approve_loop].
  rewrite (getitem_of_field _ _ _ Hcid). cbn [mbind result_bind].
  replace (Py.eq (JStr cid) (JStr cid)) with true
    by (symmetry; by apply eq_JStr).
  rewrite setitem_set_status by (by eapply field_is_record).
  cbn [mbind result_bind]. rewrite Hits. unfold Py.for_each.
  rewrite (each_mark_claimed_exact _ iid)
    by (by rewrite ?field_set_status_other).
  cbn [mbind result_bind]. rewrite Hcs. unfold Py.store.
  assert (Hput : <[(0 + length pre)%nat := set_status "approved" c]>
                   (pre ++ c :: post)
                 = pre ++ set_status "approved" c :: post).
  { rewrite Nat.add_0_l, <- (Nat.add_0_r (length pre)). by rewrite insert_app_r. }
  by rewrite Hput.
Qed.
End approve_more.

(** X7: approving is idempotent. Once [approve_claim] has approved the
    first claim that carries the given id, a second call with the same id
    returns [True] again and leaves the three collections and the three
    files exactly as the first call left them. *)
Theorem approve_claim_twice_is_once :
  ∀ (self : DLFSController.t) (fs : disk) (claim_id iid : string)
    (pre post its : list json) (c : json),
    DLFSController.claims self = JArr (pre ++ c :: post) →
    DLFSController.items self = JArr its →
    Forall (other_claim claim_id) pre →
    field "claim_id" c = Some (JStr claim_id) →
    field "item_id" c = Some (JStr iid) →
    Forall (has_field "item_id") its →
    ∃ self1 fs1,
      DLFSController.approve_claim self fs claim_id = Ok (true, self1, fs1) ∧
      DLFSController.approve_claim self1 fs1 claim_id = Ok (true, self1, fs1).
Proof.
  intros self fs claim_id iid pre post its c Hcs Hits Hpre Hcid Hiid Hwf.
  pose proof (approve_claim_exact self fs claim_id iid pre c post its
                Hcs Hits Hpre Hcid Hiid Hwf) as Hfirst.
  simpl in Hfirst. eexists _, _. split; [exact Hfirst|].
  rewrite (approve_claim_exact _ _ claim_id iid pre
             (set_status "approved" c) post (claimed_items iid its));
    try done.
  - simpl. rewrite set_status_twice, claimed_items_twice.
    by rewrite save_all_twice.
  - by rewrite field_set_status_other.
  - by rewrite field_set_status_other.
  - by apply claimed_items_has_id.
Qed.

Lemma approve_claim_twice_is_once_witness :
  ∃ self1 fs1,
    DLFSController.approve_claim
      (DLFSController.mk seed_users
         (JArr [ JObj [ ("item_id", JStr "ITEM-4821"); ("status", JStr "reported") ];
                 JObj [ ("item_id", JStr "ITEM-7000"); ("status", JStr "reported") ] ])
         (JArr [ JObj [ ("claim_id", JStr "CLM-1111"); ("user_id", JInt 1);
                        ("item_id", JStr "ITEM-7000");
                        ("status", JStr "pending") ];
                 JObj [ ("claim_id", JStr "CLM-2222"); ("user_id", JInt 2);
                        ("item_id", JStr "ITEM-4821");
                        ("status", JStr "pending") ] ]))
      (bootstrap None) "CLM-2222"
    = Ok (true, self1, fs1) ∧
    DLFSController.approve_claim self1 fs1 "CLM-2222" = Ok (true, self1, fs1).
Proof.
  eapply (approve_claim_twice_is_once _ _ "CLM-2222" "ITEM-4821"
            [ JObj [ ("claim_id", JStr "CLM-1111"); ("user_id", JInt 1);
                     ("item_id", JStr "ITEM-7000");
                     ("status", JStr "pending") ] ] []).
  - reflexivity.
  - reflexivity.
  - repeat constructor. eexists. split; [reflexivity|discriminate].
  - reflexivity.
  - reflexivity.
  - repeat constructor; by eexists.
Defined.

Section ids.
Implicit Types (a b : Z) (ds : list Z) (s t p : string).

Lemma append_inj_r p s t : p +:+ s = p +:+ t → s = t.
Proof.
  induction p as [|c p IH]; [done|].
  rewrite !append_cons. intros [= H]. by apply IH.
Qed.

Lemma prefixed_pretty_inj p : Inj (=) (=) (λ d : Z, p +:+ pretty d).
Proof. intros a b H. apply append_inj_r in H. by apply (inj pretty). Qed.

Lemma too_many_draws ds :
  Forall (λ d, 1000 ≤ d ≤ 9999) ds → 9000 < Z.of_nat (length ds) → ¬ NoDup ds.
Proof.
  intros Hrange Hlen Hnodup.
  assert (ds ⊆+ seqZ 1000 9000) as Hsub.
  { apply NoDup_submseteq; [done|]. intros d Hd.
    rewrite Forall_forall in Hrange. apply elem_of_seqZ.
    specialize (Hrange d Hd). lia. }
  apply submseteq_length in Hsub. rewrite length_seqZ in Hsub. lia.
Qed.
End ids.

(** X8: the generated ids. Two item ids are equal exactly when the same
    number was drawn, and likewise two claim ids; an item id is never a
    claim id; and since the numbers are drawn from 1000..9999, among more
    than 9000 generated item ids, or claim ids, two are equal. *)
Theorem generated_ids_collide :
  ∀ (ds : list Z) (n d l t : string) (u i : json),
    Forall (λ x, 1000 ≤ x ≤ 9999) ds →
    let item_id_of := λ x, ReportedItem.item_id (ReportedItem.__init__ x n d l t) in
    let claim_id_of := λ x, Claim.claim_id (Claim.__init__ x u i) in
    (∀ a b, item_id_of a = item_id_of b ↔ a = b) ∧
    (∀ a b, claim_id_of a = claim_id_of b ↔ a = b) ∧
    (∀ a b, item_id_of a ≠ claim_id_of b) ∧
    (9000 < Z.of_nat (length ds) →
     ¬ NoDup (item_id_of <$> ds) ∧ ¬ NoDup (claim_id_of <$> ds)).
Proof.
  intros ds n d l t u i Hrange item_id_of claim_id_of. split_and!.
  - intros a b. split; [apply (prefixed_pretty_inj "ITEM-")|by intros ->].
  - intros a b. split; [apply (prefixed_pretty_inj "CLM-")|by intros ->].
  - intros a b. unfold item_id_of, claim_id_of. simpl.
    rewrite !append_cons. discriminate.
  - intros Hlen. split; intros Hnodup%NoDup_fmap_1; by eapply too_many_draws.
Qed.

Lemma generated_ids_collide_witness :
  Forall (λ x, 1000 ≤ x ≤ 9999) [1234; 5678; 1234] ∧
  (ReportedItem.item_id (ReportedItem.__init__ 1234 "Wallet" "Black" "Library" "lost")
   = ReportedItem.item_id (ReportedItem.__init__ 5678 "Wallet" "Black" "Library" "lost")
   ↔ 1234 = 5678).
Proof.
  assert (H : Forall (λ x, 1000 ≤ x ≤ 9999) [1234; 5678; 1234])
    by (repeat constructor; lia).
  split; [exact H|].
  exact (proj1 (generated_ids_collide [1234; 5678; 1234]
                  "Wallet" "Black" "Library" "lost" JNull JNull H) 1234 5678).
Defined.

(** ** The menus *)

Section console.
Import Console.
Context {Lw : Py.Lower}.
Context (R : relation session) `{!PreOrder R}.
Hypothesis R_console : ∀ s s', console_only s s' → R s s'.

Lemma bind_run {A B : Type} (m : ui A) (f : A → ui B) (s : session) :
  (m ≫= f) s = match m s with
               | (inl a, s') => f a s'
               | (inr h, s') => (inr h, s')
               end.
Proof. reflexivity. Qed.

Lemma keeps_ret {A : Type} (a : A) : keeps_rel R (mret a : ui A).
Proof. intros s. simpl. reflexivity. Qed.

Lemma keeps_bind {A B : Type} (m : ui A) (f : A → ui B) :
  keeps_rel R m → (∀ a, keeps_rel R (f a)) → keeps_rel R (m ≫= f).
Proof.
  intros Hm Hf s. rewrite bind_run. specialize (Hm s).
  destruct (m s) as [[a|h] s']; simpl in *; [|done].
  etrans; [exact Hm|apply Hf].
Qed.

Lemma keeps_print line : keeps_rel R (print line).
Proof. intros s. apply R_console. by split_and!. Qed.

Lemma keeps_input prompt : keeps_rel R (input prompt).
Proof.
  intros s. apply R_console. unfold input, write, console_only. cbn.
  destruct s as [c fs [|x rest] out rnd n]; cbn; split_and!; try done.
  by apply suffix_cons_r.
Qed.

Lemma keeps_randint : keeps_rel R randint.
Proof. intros s. apply R_console. by split_and!. Qed.

Lemma keeps_eval {A : Type} (r : result A) : keeps_rel R (eval r).
Proof. intros s. unfold eval. destruct r; simpl; reflexivity. Qed.

Lemma keeps_ask {A : Type} (f : DLFSController.t → result A) :
  keeps_rel R (ask f).
Proof. intros s. unfold ask. apply keeps_eval. Qed.

Lemma keeps_out_of_fuel {A : Type} : keeps_rel R (@out_of_fuel A).
Proof. intros s. simpl. reflexivity. Qed.

Lemma keeps_call {A : Type}
    (f : DLFSController.t → disk → result (A * DLFSController.t * disk)) :
  (∀ s a c fs, f (controller s) (files s) = Ok (a, c, fs) →
               R s (Session c fs (stdin s) (stdout s) (random s) (used s))) →
  keeps_rel R (call f).
Proof.
  intros Hf s. unfold call.
  destruct (f (controller s) (files s)) as [[[a c] fs]|e] eqn:E; simpl.
  - by eapply Hf.
  - reflexivity.
Qed.
End console.

Section menus_keep.
Import Console Menus.
Context {Lw : Py.Lower}.
Context (R : relation session) `{!PreOrder R}.
Hypothesis R_console : ∀ s s', console_only s s' → R s s'.
Hypothesis R_report :
  ∀ s n name desc loc ty uid id c fs,
    DLFSController.report_item (controller s) (files s) n name desc loc ty uid
    = Ok (id, c, fs) →
    R s (Session c fs (stdin s) (stdout s) (random s) (used s)).
Hypothesis R_approve :
  ∀ s cid b c fs,
    DLFSController.approve_claim (controller s) (files s) cid = Ok (b, c, fs) →
    R s (Session c fs (stdin s) (stdout s) (random s) (used s)).
Hypothesis R_add :
  ∀ s uid name email password role c fs,
    DLFSController.add_user (controller s) (files s) uid name email password role
    = Ok (c, fs) →
    R s (Session c fs (stdin s) (stdout s) (random s) (used s)).

Local Ltac keeps_step :=
  first [ apply keeps_bind; [done| |intros ?]
        | apply keeps_ret; done
        | apply keeps_print; done
        | apply keeps_input; done
        | apply keeps_randint; done
        | apply keeps_eval; done
        | apply keeps_ask; done
        | apply keeps_out_of_fuel; done ].

Local Ltac keeps := repeat keeps_step.

Lemma keeps_print_each l : keeps_rel R (print_each l).
Proof. induction l as [|item l IH]; simpl; keeps. exact IH. Qed.

Lemma keeps_print_items results : keeps_rel R (print_items results).
Proof.
  unfold print_items. destruct (truthy results); keeps.
  apply keeps_print_each.
Qed.

Lemma keeps_report_typed_item item_type word user :
  keeps_rel R (report_typed_item item_type word user).
Proof.
  unfold report_typed_item. keeps.
  apply keeps_call; [done|]. intros s id c fs Hrun. by eapply R_report.
Qed.

Lemma keeps_claim_item_none user : keeps_rel R (claim_item user None).
Proof. unfold claim_item. keeps. Qed.

Lemma keeps_search_menu : keeps_rel R search_menu.
Proof. unfold search_menu. keeps. Qed.

Lemma keeps_view_all_items : keeps_rel R view_all_items.
Proof.
  unfold view_all_items. keeps. destruct (truthy _); keeps.
  apply keeps_print_items.
Qed.

Lemma keeps_search_by_keyword k : keeps_rel R (search_by_keyword k).
Proof. destruct k; simpl; keeps. apply keeps_print_items. Qed.

Lemma keeps_search_by_location l : keeps_rel R (search_by_location l).
Proof. destruct l; simpl; keeps. apply keeps_print_items. Qed.

Lemma keeps_search_by_type t : keeps_rel R (search_by_type t).
Proof. destruct t; simpl; keeps. apply keeps_print_items. Qed.

Lemma keeps_user_choice user choice : keeps_rel R (user_choice user choice).
Proof.
  unfold user_choice, report_lost_item, report_found_item.
  repeat first
    [ apply keeps_report_typed_item | apply keeps_search_menu
    | apply keeps_view_all_items | apply keeps_search_by_keyword
    | apply keeps_search_by_location | apply keeps_search_by_type
    | apply keeps_claim_item_none
    | case_match | keeps_step ].
Qed.

Lemma keeps_user_round next user :
  keeps_rel R next → keeps_rel R (user_round next user).
Proof.
  intros Hnext. unfold user_round.
  repeat first [apply keeps_user_choice | exact Hnext | case_match | keeps_step].
Qed.

Lemma keeps_user_menu fuel user : keeps_rel R (user_menu fuel user).
Proof.
  induction fuel as [|fuel IH]; simpl; [keeps|by apply keeps_user_round].
Qed.

Lemma keeps_approve_claim : keeps_rel R approve_claim.
Proof.
  unfold approve_claim.
  repeat first
    [ by (apply keeps_call; [done|]; intros; eapply R_approve; eassumption)
    | case_match | keeps_step ].
Qed.

Lemma keeps_add_user : keeps_rel R add_user.
Proof.
  unfold add_user. repeat first [case_match | keeps_step].
  all: apply keeps_call; [done|]; intros s [] c fs Hrun.
  all: apply bind_Ok in Hrun as ([c' fs'] & Hrun & [= <- <-]).
  all: unfold DLFSUI.add_user in Hrun; by eapply R_add.
Qed.

Lemma keeps_admin_choice choice : keeps_rel R (admin_choice choice).
Proof.
  unfold admin_choice.
  repeat first
    [apply keeps_approve_claim | apply keeps_add_user | case_match | keeps_step].
Qed.

Lemma keeps_admin_round next :
  keeps_rel R next → keeps_rel R (admin_round next).
Proof.
  intros Hnext. unfold admin_round.
  repeat first [apply keeps_admin_choice | exact Hnext | case_match | keeps_step].
Qed.

Lemma keeps_admin_menu fuel admin : keeps_rel R (admin_menu fuel admin).
Proof.
  induction fuel as [|fuel IH]; simpl; [keeps|by apply keeps_admin_round].
Qed.

Lemma keeps_main_login (admin user : json → ui unit) :
  (∀ a, keeps_rel R (admin a)) → (∀ a, keeps_rel R (user a)) →
  keeps_rel R (main_login admin user).
Proof.
  intros Hadmin Huser. unfold main_login, login.
  repeat first [apply Hadmin | apply Huser | case_match | keeps_step].
Qed.

Lemma keeps_main_menu fuel : keeps_rel R (main_menu fuel).
Proof.
  induction fuel as [|fuel IH]; simpl; [keeps|]. unfold main_round.
  repeat first
    [ apply keeps_main_login;
        [apply keeps_admin_menu|apply keeps_user_menu]
    | exact IH | case_match | keeps_step ].
Qed.
End menus_keep.

Section menus_steps.
Import Console Menus.
Implicit Types (s : session) (c : DLFSController.t) (fs : disk).
Context {Lw : Py.Lower}.

#[global] Instance stdin_le_preorder : PreOrder stdin_le.
Proof.
  split.
  - intros s. unfold stdin_le. lia.
  - intros s1 s2 s3. unfold stdin_le. lia.
Qed.

Lemma approved_or_same_trans (x1 x2 x3 : json) :
  approved_or_same x1 x2 → approved_or_same x2 x3 → approved_or_same x1 x3.
Proof.
  intros [->|(Hr2 & Hs2 & Ho2)] [->|(Hr3 & Hs3 & Ho3)].
  - by left.
  - right. by split_and!.
  - right. by split_and!.
  - right. split_and!; try done. intros k Hk. by rewrite Ho3, Ho2.
Qed.

#[global] Instance claims_kept_preorder : PreOrder claims_kept.
Proof.
  split.
  - intros a. by left.
  - intros a b d [->|(l1 & l2 & -> & -> & H12)]; [done|].
    intros [<-|(l2' & l3 & [= <-] & -> & H23)].
    + right. by exists l1, l2.
    + right. exists l1, l3. split_and!; try done.
      revert l3 H23. induction H12 as [|x y l1 l2 Hxy _ IH]; intros l3 H23.
      * by inversion H23.
      * inversion H23 as [|y' z l2' l3' Hyz Hrest]; subst.
        constructor; [by eapply approved_or_same_trans|by apply IH].
Qed.

#[global] Instance user_step_preorder : PreOrder user_step.
Proof.
  split.
  - intros s. by split_and!.
  - intros s1 s2 s3 (Hu & Hc & Hs & Hi) (Hu' & Hc' & Hs' & Hi').
    split_and!; [congruence|congruence|tauto|by etrans].
Qed.

#[global] Instance menu_step_preorder : PreOrder menu_step.
Proof.
  split.
  - intros s. split_and!; done.
  - intros s1 s2 s3 (Hc & Hs & Hi) (Hc' & Hs' & Hi').
    split_and!; [by etrans|tauto|by etrans].
Qed.

Lemma console_stdin_le s s' : console_only s s' → stdin_le s s'.
Proof. intros (_ & _ & H). by apply suffix_length. Qed.

Lemma console_user_step s s' : console_only s s' → user_step s s'.
Proof. intros (Hc & Hf & Hi). unfold user_step. rewrite Hc, Hf. by split_and!. Qed.

Lemma console_menu_step s s' : console_only s s' → menu_step s s'.
Proof. intros (Hc & Hf & Hi). unfold menu_step. rewrite Hc, Hf. by split_and!. Qed.

Lemma report_item_users_claims c fs n name desc loc ty uid id c' fs' :
  DLFSController.report_item c fs n name desc loc ty uid = Ok (id, c', fs') →
  DLFSController.users c' = DLFSController.users c ∧
  DLFSController.claims c' = DLFSController.claims c.
Proof.
  intros H. unfold DLFSController.report_item in H.
  by apply bind_Ok in H as (its' & _ & [= _ <- _]).
Qed.

Lemma add_user_claims c fs uid name email password role c' fs' :
  DLFSController.add_user c fs uid name email password role = Ok (c', fs') →
  DLFSController.claims c' = DLFSController.claims c.
Proof.
  intros H. unfold DLFSController.add_user in H.
  apply bind_Ok in H as (v & _ & H). apply bind_Ok in H as (v' & _ & H).
  by apply bind_Ok in H as (v'' & _ & [= <- _]).
Qed.

(** What a successful [approve_loop] did to the claims. *)
Lemma approve_loop_claims c fs cid i cs b c' fs' :
  DLFSController.approve_loop c fs cid i cs = Ok (b, c', fs') →
  c' = c ∨
  ∃ k x x', cs !! k = Some x ∧ updated "status" (JStr "approved") x x' ∧
            DLFSController.claims c'
            = Py.store (DLFSController.claims c) (i + k) x'.
Proof.
  revert i. induction cs as [|x cs IH]; intros i; cbn [DLFSController.approve_loop].
  - intros [= _ <- _]. by left.
  - intros (id & Hid & H)%bind_Ok.
    destruct (Py.eq id (JStr cid)).
    + apply bind_Ok in H as (x' & Hset & H).
      apply bind_Ok in H as (its' & _ & [= _ <- _]).
      right. exists 0%nat, x, x'. split; [done|]. split.
      * destruct x as [| | | | |kv]; try discriminate.
        destruct (setitem_updated (JObj kv) "status" (JStr "approved"))
          as (y & Hy & Hupd); [by eexists|].
        congruence.
      * simpl. by rewrite Nat.add_0_r.
    + destruct (IH _ H) as [->|(k & y & y' & Hk & Hupd & Hc)]; [by left|].
      right. exists (S k), y, y'. split_and!; try done.
      rewrite Hc. f_equal. lia.
Qed.

Lemma approve_claim_claims_kept c fs cid b c' fs' :
  DLFSController.approve_claim c fs cid = Ok (b, c', fs') →
  claims_kept (DLFSController.claims c) (DLFSController.claims c').
Proof.
  intros H. unfold DLFSController.approve_claim in H.
  apply bind_Ok in H as (cs & Hiter & H).
  apply approve_loop_claims in H as [->|(k & x & x' & Hk & Hupd & ->)];
    [by left|].
  destruct (DLFSController.claims c) as [| | | |all|]; try by left.
  simpl in Hiter. injection Hiter as <-. right.
  exists all, (<[k := x']> all). split_and!; try done.
  rewrite <- (list_insert_id all k x) at 1 by done.
  apply Forall2_insert; [|by right].
  apply Forall_Forall2_diag, Forall_forall. intros y _. by left.
Qed.

Lemma report_user_step s n name desc loc ty uid id c fs :
  DLFSController.report_item (controller s) (files s) n name desc loc ty uid
  = Ok (id, c, fs) →
  user_step s (Session c fs (stdin s) (stdout s) (random s) (used s)).
Proof.
  intros H. destruct (report_item_users_claims _ _ _ _ _ _ _ _ _ _ _ H).
  split_and!; try done. intros _. by eapply report_item_keeps_synced.
Qed.

Lemma report_menu_step s n name desc loc ty uid id c fs :
  DLFSController.report_item (controller s) (files s) n name desc loc ty uid
  = Ok (id, c, fs) →
  menu_step s (Session c fs (stdin s) (stdout s) (random s) (used s)).
Proof.
  intros H. destruct (report_item_users_claims _ _ _ _ _ _ _ _ _ _ _ H)
    as [_ Hc].
  split_and!; simpl; [by rewrite Hc| |done].
  intros _. by eapply report_item_keeps_synced.
Qed.

Lemma approve_menu_step s cid b c fs :
  DLFSController.approve_claim (controller s) (files s) cid = Ok (b, c, fs) →
  menu_step s (Session c fs (stdin s) (stdout s) (random s) (used s)).
Proof.
  intros H. split_and!; simpl; [by eapply approve_claim_claims_kept| |done].
  intros Hs. by eapply approve_claim_keeps_synced.
Qed.

Lemma add_menu_step s uid name email password role c fs :
  DLFSController.add_user (controller s) (files s) uid name email password role
  = Ok (c, fs) →
  menu_step s (Session c fs (stdin s) (stdout s) (random s) (used s)).
Proof.
  intros H. split_and!; simpl; [by rewrite (add_user_claims _ _ _ _ _ _ _ _ _ H)| |done].
  intros Hs. by eapply add_user_keeps_synced.
Qed.
End menus_steps.

(** X9: a run of the user menu, whatever is typed and however the run
    ends, changes neither the accounts nor the claims: when the files hold
    the collections at the start, [users.json] and [claims.json] are at
    the end what they were, and so are the two collections of the
    controller. In particular no claim is filed: choice 4 calls
    [claim_item] without an item id, which only reads a line. *)
Theorem user_menu_leaves_accounts_and_claims {Lw : Py.Lower} :
  ∀ (fuel : nat) (user : json) (s : session),
    synced (controller s) (files s) →
    let s' := (Menus.user_menu fuel user s).2 in
    DLFSController.users (controller s') = DLFSController.users (controller s) ∧
    DLFSController.claims (controller s') = DLFSController.claims (controller s) ∧
    files s' !! "users.json" = files s !! "users.json" ∧
    files s' !! "claims.json" = files s !! "claims.json".
Proof.
  intros fuel user s Hsync.
  destruct (keeps_user_menu user_step console_user_step report_user_step
              fuel user s) as (Hu & Hc & Hs & _).
  destruct (Hs Hsync) as (Hu' & _ & Hc'). destruct Hsync as (Hu0 & _ & Hc0).
  simpl. split_and!; try done.
  - by rewrite Hu', Hu0, Hu.
  - by rewrite Hc', Hc0, Hc.
Qed.

Lemma user_menu_leaves_accounts_and_claims_witness :
  synced (DLFSController.mk seed_users (JArr []) (JArr [])) (bootstrap None) ∧
  files (Menus.user_menu (Lw := known_lower) 10
           (JObj [("id", JInt 2); ("role", JStr "user")])
           (Session (DLFSController.mk seed_users (JArr []) (JArr []))
              (bootstrap None)
              ["1"; "Wallet"; "Black leather"; "Library"; "4"; "ITEM-4821"; "5"]
              [] (λ _, 4821) 0)).2 !! "claims.json"
  = bootstrap None !! "claims.json".
Proof.
  assert (H0 : synced (DLFSController.mk seed_users (JArr []) (JArr []))
                 (bootstrap None)) by (split_and!; reflexivity).
  split; [exact H0|].
  apply (user_menu_leaves_accounts_and_claims (Lw := known_lower) 10
           (JObj [("id", JInt 2); ("role", JStr "user")])
           (Session (DLFSController.mk seed_users (JArr []) (JArr []))
              (bootstrap None)
              ["1"; "Wallet"; "Black leather"; "Library"; "4"; "ITEM-4821"; "5"]
              [] (λ _, 4821) 0) H0).
Defined.

Lemma main_menu_claims_kept {Lw : Py.Lower} (fuel : nat) (s : session) :
  synced (controller s) (files s) →
  ∃ kept,
    files (Menus.main_menu fuel s).2 !! "claims.json" = Some (Parses kept) ∧
    claims_kept (DLFSController.claims (controller s)) kept.
Proof.
  intros Hsync.
  destruct (keeps_main_menu menu_step console_menu_step report_menu_step
              approve_menu_step add_menu_step fuel s) as (Hc & Hs & _).
  destruct (Hs Hsync) as (_ & _ & Hc'). eexists. split; [exact Hc'|done].
Qed.

(** X10: through the menus no claim is ever filed or removed. When the
    files hold the collections at the start of the main menu, then at the
    end of the run, whatever was typed and however the run ended,
    [claims.json] holds the same claims one for one, each of them as it
    was or with its status set to [approved]. *)
Theorem menus_never_file_claim {Lw : Py.Lower} :
  ∀ (fuel : nat) (s : session),
    synced (controller s) (files s) →
    ∃ kept,
      files (Menus.main_menu fuel s).2 !! "claims.json" = Some (Parses kept) ∧
      claims_kept (DLFSController.claims (controller s)) kept.
Proof. intros fuel s. apply main_menu_claims_kept. Qed.

Lemma menus_never_file_claim_witness :
  synced (DLFSController.mk seed_users (JArr [])
            (JArr [ JObj [ ("claim_id", JStr "CLM-1111"); ("user_id", JInt 2);
                           ("item_id", JStr "ITEM-4821");
                           ("status", JStr "pending") ] ]))
         (DLFSController.save_all
            (DLFSController.mk seed_users (JArr [])
               (JArr [ JObj [ ("claim_id", JStr "CLM-1111"); ("user_id", JInt 2);
                              ("item_id", JStr "ITEM-4821");
                              ("status", JStr "pending") ] ]))
            ∅) ∧
  ∃ kept,
    files (Menus.main_menu (Lw := known_lower) 20
             (Session
                (DLFSController.mk seed_users (JArr [])
                   (JArr [ JObj [ ("claim_id", JStr "CLM-1111"); ("user_id", JInt 2);
                                  ("item_id", JStr "ITEM-4821");
                                  ("status", JStr "pending") ] ]))
                (DLFSController.save_all
                   (DLFSController.mk seed_users (JArr [])
                      (JArr [ JObj [ ("claim_id", JStr "CLM-1111"); ("user_id", JInt 2);
                                     ("item_id", JStr "ITEM-4821");
                                     ("status", JStr "pending") ] ]))
                   ∅)
                ["1"; "admin@dlfs.com"; "admin123"; "1"; "CLM-1111"; "3"; "2"]
                [] (λ _, 4821) 0)).2 !! "claims.json"
    = Some (Parses kept) ∧
    claims_kept
      (JArr [ JObj [ ("claim_id", JStr "CLM-1111"); ("user_id", JInt 2);
                     ("item_id", JStr "ITEM-4821");
                     ("status", JStr "pending") ] ])
      kept.
Proof.
  assert (H0 : synced (DLFSController.mk seed_users (JArr [])
            (JArr [ JObj [ ("claim_id", JStr "CLM-1111"); ("user_id", JInt 2);
                           ("item_id", JStr "ITEM-4821");
                           ("status", JStr "pending") ] ]))
         (DLFSController.save_all
            (DLFSController.mk seed_users (JArr [])
               (JArr [ JObj [ ("claim_id", JStr "CLM-1111"); ("user_id", JInt 2);
                              ("item_id", JStr "ITEM-4821");
                              ("status", JStr "pending") ] ]))
            ∅)) by apply save_all_synced.
  split; [exact H0|].
  exact (menus_never_file_claim (Lw := known_lower) 20 (Session _ _ _ _ _ _) H0).
Defined.

(** X11: the program, from its first run on. Whatever is typed, whatever
    numbers are drawn and however the run ends, [claims.json] holds the
    empty list when the program stops: the menus offer no way to file a
    claim, so there is never one to approve. *)
Theorem main_claims_stay_empty {Lw : Py.Lower} :
  ∀ (fuel : nat) (typed : list string) (random : nat → Z),
    files (main fuel None typed random).2 !! "claims.json"
    = Some (Parses (JArr [])).
Proof.
  intros fuel typed random. unfold main, Menus.__init__.
  assert (Hinit : DLFSController.__init__ (bootstrap None)
                  = Ok (DLFSController.mk seed_users (JArr []) (JArr [])))
    by reflexivity.
  rewrite Hinit.
  destruct (main_menu_claims_kept fuel
              (Session (DLFSController.mk seed_users (JArr []) (JArr []))
                 (bootstrap None) typed [] random 0))
    as (kept & Hfile & Hkept); [by split_and!|].
  rewrite Hfile. destruct Hkept as [<-|(cs & cs' & [= <-] & -> & H)]; [done|].
  by inversion H.
Qed.

Section termination.
Import Console Menus.
Implicit Types (s : session) (n fuel : nat).
Context {Lw : Py.Lower}.

Lemma nf_ret {A : Type} (a : A) : never_out_of_fuel (mret a : ui A).
Proof. by intros s. Qed.

Lemma nf_bind {A B : Type} (m : ui A) (f : A → ui B) :
  never_out_of_fuel m → (∀ a, never_out_of_fuel (f a)) →
  never_out_of_fuel (m ≫= f).
Proof.
  intros Hm Hf s. rewrite bind_run. specialize (Hm s).
  destruct (m s) as [[a|h] s']; simpl in *; [apply Hf|].
  intros [= ->]. by apply Hm.
Qed.

Lemma nf_print line : never_out_of_fuel (print line).
Proof. by intros s. Qed.

Lemma nf_input prompt : never_out_of_fuel (input prompt).
Proof. intros [c fs [|x rest] out rnd k]; by cbn. Qed.

Lemma nf_randint : never_out_of_fuel randint.
Proof. by intros s. Qed.

Lemma nf_eval {A : Type} (r : result A) : never_out_of_fuel (eval r).
Proof. intros s. by destruct r. Qed.

Lemma nf_ask {A : Type} (f : DLFSController.t → result A) :
  never_out_of_fuel (ask f).
Proof. intros s. apply nf_eval. Qed.

Lemma nf_call {A : Type}
    (f : DLFSController.t → disk → result (A * DLFSController.t * disk)) :
  never_out_of_fuel (call f).
Proof.
  intros s. unfold call.
  by destruct (f (controller s) (files s)) as [[[a c] fs]|e].
Qed.

Local Ltac nf_step :=
  first [ apply nf_bind; [|intros ?] | apply nf_ret | apply nf_print
        | apply nf_input | apply nf_randint | apply nf_eval | apply nf_ask
        | apply nf_call ].

Lemma nf_print_each l : never_out_of_fuel (print_each l).
Proof. induction l as [|item l IH]; simpl; repeat first [exact IH | nf_step]. Qed.

Lemma nf_print_items results : never_out_of_fuel (print_items results).
Proof.
  unfold print_items.
  repeat first [apply nf_print_each | case_match | nf_step].
Qed.

Lemma nf_user_choice user choice : never_out_of_fuel (user_choice user choice).
Proof.
  unfold user_choice, report_lost_item, report_found_item, report_typed_item,
    claim_item, search_menu, view_all_items, search_by_keyword,
    search_by_location, search_by_type.
  repeat first [apply nf_print_items | case_match | nf_step].
Qed.

Lemma nf_admin_choice choice : never_out_of_fuel (admin_choice choice).
Proof.
  unfold admin_choice, approve_claim, add_user.
  repeat first [case_match | nf_step].
Qed.

Lemma nf_login email password : never_out_of_fuel (login email password).
Proof. unfold login. repeat nf_step. Qed.

Lemma ends_of_never {A : Type} n (m : ui A) :
  never_out_of_fuel m → ends_within n m.
Proof. intros H s _. apply H. Qed.

Lemma ends_bind {A B : Type} n (m : ui A) (f : A → ui B) :
  ends_within n m → keeps_rel stdin_le m → (∀ a, ends_within n (f a)) →
  ends_within n (m ≫= f).
Proof.
  intros Hm Hle Hf s Hs. rewrite bind_run.
  specialize (Hm s Hs). specialize (Hle s). unfold stdin_le in Hle.
  destruct (m s) as [[a|h] s']; simpl in *; [apply Hf; lia|].
  intros [= ->]. by apply Hm.
Qed.

Lemma ends_input {A : Type} n prompt (f : string → ui A) :
  (∀ a, ends_within n (f a)) → ends_within (S n) (input prompt ≫= f).
Proof.
  intros Hf [c fs [|x rest] out rnd k] Hs; [by cbn|].
  rewrite bind_run. cbn. apply Hf. cbn in *. lia.
Qed.

Local Ltac stdin_le_side :=
  first [ apply console_stdin_le
        | apply _
        | intros; unfold stdin_le; simpl; lia ].

Lemma stdin_le_print line : keeps_rel stdin_le (print line).
Proof. apply keeps_print; stdin_le_side. Qed.

Lemma stdin_le_input prompt : keeps_rel stdin_le (input prompt).
Proof. apply keeps_input; stdin_le_side. Qed.

Lemma stdin_le_login email password : keeps_rel stdin_le (login email password).
Proof.
  unfold login.
  refine (keeps_bind stdin_le _ _ _ _); [apply keeps_ask; apply _|].
  intros user. refine (keeps_bind stdin_le _ _ _ _); [apply stdin_le_print|].
  intros _. apply keeps_ret; apply _.
Qed.

Lemma stdin_le_user_choice user choice :
  keeps_rel stdin_le (user_choice user choice).
Proof. apply keeps_user_choice; stdin_le_side. Qed.

Lemma stdin_le_admin_choice choice : keeps_rel stdin_le (admin_choice choice).
Proof. apply keeps_admin_choice; stdin_le_side. Qed.

Lemma stdin_le_user_menu fuel user : keeps_rel stdin_le (user_menu fuel user).
Proof. apply keeps_user_menu; stdin_le_side. Qed.

Lemma stdin_le_admin_menu fuel admin : keeps_rel stdin_le (admin_menu fuel admin).
Proof. apply keeps_admin_menu; stdin_le_side. Qed.

Local Ltac ends_prints :=
  repeat (apply ends_bind;
          [apply ends_of_never, nf_print|apply stdin_le_print|intros _]).

Lemma user_round_ends n next user :
  ends_within n next → ends_within (S n) (user_round next user).
Proof.
  intros Hnext. unfold user_round. ends_prints. apply ends_input. intros choice.
  apply ends_bind; [apply ends_of_never, nf_user_choice
                   |apply stdin_le_user_choice|].
  intros [|]; [exact Hnext|apply ends_of_never, nf_ret].
Qed.

Lemma user_menu_ends fuel user : ends_within fuel (user_menu fuel user).
Proof.
  induction fuel as [|fuel IH]; [intros s Hs; cbn in Hs; lia|].
  by apply user_round_ends.
Qed.

Lemma admin_round_ends n next :
  ends_within n next → ends_within (S n) (admin_round next).
Proof.
  intros Hnext. unfold admin_round. ends_prints. apply ends_input. intros choice.
  apply ends_bind; [apply ends_of_never, nf_admin_choice
                   |apply stdin_le_admin_choice|].
  intros [|]; [exact Hnext|apply ends_of_never, nf_ret].
Qed.

Lemma admin_menu_ends fuel admin : ends_within fuel (admin_menu fuel admin).
Proof.
  induction fuel as [|fuel IH]; [intros s Hs; cbn in Hs; lia|].
  by apply admin_round_ends.
Qed.

Lemma main_login_ends n (admin user : json → ui unit) :
  (∀ a, ends_within n (admin a)) → (∀ a, ends_within n (user a)) →
  ends_within n (main_login admin user).
Proof.
  intros Hadmin Huser. unfold main_login.
  apply ends_bind; [apply ends_of_never, nf_input|apply stdin_le_input|].
  intros email.
  apply ends_bind; [apply ends_of_never, nf_input|apply stdin_le_input|].
  intros password.
  apply ends_bind; [apply ends_of_never, nf_login|apply stdin_le_login|].
  intros [account|]; [|apply ends_of_never, nf_print].
  destruct (truthy account); [|apply ends_of_never, nf_print].
  apply ends_bind; [apply ends_of_never, nf_eval|apply keeps_eval; apply _|].
  intros role. destruct (Py.eq role (JStr "admin")); [apply Hadmin|apply Huser].
Qed.

Lemma stdin_le_main_login fuel :
  keeps_rel stdin_le (main_login (admin_menu fuel) (user_menu fuel)).
Proof.
  apply keeps_main_login;
    first [apply stdin_le_admin_menu | apply stdin_le_user_menu | stdin_le_side].
Qed.

Lemma main_menu_ends fuel : ends_within fuel (main_menu fuel).
Proof.
  induction fuel as [|fuel IH]; [intros s Hs; cbn in Hs; lia|].
  cbn [main_menu]. unfold main_round. ends_prints. apply ends_input.
  intros choice. destruct (String.eqb choice "1").
  - apply ends_bind; [|apply stdin_le_main_login|by intros _].
    apply main_login_ends; intros a;
      [apply admin_menu_ends|apply user_menu_ends].
  - destruct (String.eqb choice "2"); [apply ends_of_never, nf_ret|exact IH].
Qed.
End termination.

Section rounds.
Import Console Menus.
Implicit Types (s : session) (n fuel : nat).
Context {Lw : Py.Lower}.

Lemma stable_bind {A B : Type} n (m : ui A) (f g : A → ui B) :
  keeps_rel stdin_le m →
  (∀ a s, (length (stdin s) < n)%nat → f a s = g a s) →
  ∀ s, (length (stdin s) < n)%nat → (m ≫= f) s = (m ≫= g) s.
Proof.
  intros Hle Hfg s Hs. rewrite !bind_run.
  specialize (Hle s). unfold stdin_le in Hle.
  destruct (m s) as [[a|h] s']; simpl in *; [|done].
  apply Hfg. lia.
Qed.

Lemma stable_input {A : Type} n prompt (f g : string → ui A) :
  (∀ a s, (length (stdin s) < n)%nat → f a s = g a s) →
  ∀ s, (length (stdin s) < S n)%nat →
       (input prompt ≫= f) s = (input prompt ≫= g) s.
Proof.
  intros Hfg [c fs [|x rest] out rnd k] Hs; [done|].
  rewrite !bind_run. cbn. apply Hfg. cbn in *. lia.
Qed.

Local Ltac stable_prints :=
  repeat (apply stable_bind; [apply stdin_le_print|intros _]).

Lemma user_round_stable n (next next' : ui unit) user :
  (∀ s, (length (stdin s) < n)%nat → next s = next' s) →
  ∀ s, (length (stdin s) < S n)%nat →
       user_round next user s = user_round next' user s.
Proof.
  intros Hnext. unfold user_round. stable_prints. apply stable_input.
  intros choice. apply stable_bind; [apply stdin_le_user_choice|].
  intros [|]; [exact Hnext|done].
Qed.

Lemma user_menu_stable fuel user s :
  (length (stdin s) < fuel)%nat → user_menu (S fuel) user s = user_menu fuel user s.
Proof.
  revert s. induction fuel as [|fuel IH]; intros s Hs; [lia|].
  exact (user_round_stable fuel _ _ user IH s Hs).
Qed.

Lemma admin_round_stable n (next next' : ui unit) :
  (∀ s, (length (stdin s) < n)%nat → next s = next' s) →
  ∀ s, (length (stdin s) < S n)%nat → admin_round next s = admin_round next' s.
Proof.
  intros Hnext. unfold admin_round. stable_prints. apply stable_input.
  intros choice. apply stable_bind; [apply stdin_le_admin_choice|].
  intros [|]; [exact Hnext|done].
Qed.

Lemma admin_menu_stable fuel admin s :
  (length (stdin s) < fuel)%nat →
  admin_menu (S fuel) admin s = admin_menu fuel admin s.
Proof.
  revert s. induction fuel as [|fuel IH]; intros s Hs; [lia|].
  exact (admin_round_stable fuel _ _ IH s Hs).
Qed.

Lemma main_login_stable n (admin admin' user user' : json → ui unit) :
  (∀ a s, (length (stdin s) < n)%nat → admin a s = admin' a s) →
  (∀ a s, (length (stdin s) < n)%nat → user a s = user' a s) →
  ∀ s, (length (stdin s) < n)%nat →
       main_login admin user s = main_login admin' user' s.
Proof.
  intros Hadmin Huser. unfold main_login.
  apply stable_bind; [apply stdin_le_input|]. intros email.
  apply stable_bind; [apply stdin_le_input|]. intros password.
  apply stable_bind; [apply stdin_le_login|].
  intros [account|]; [|done]. destruct (truthy account); [|done].
  apply stable_bind; [apply keeps_eval; apply _|].
  intros role. destruct (Py.eq role (JStr "admin")); [apply Hadmin|apply Huser].
Qed.

Lemma main_menu_stable fuel s :
  (length (stdin s) < fuel)%nat → main_menu (S fuel) s = main_menu fuel s.
Proof.
  revert s. induction fuel as [|fuel IH]; intros s Hs; [lia|].
  change (main_round (admin_menu (S fuel)) (user_menu (S fuel))
            (main_menu (S fuel)) s
          = main_round (admin_menu fuel) (user_menu fuel) (main_menu fuel) s).
  revert s Hs. unfold main_round. stable_prints. apply stable_input.
  intros choice s Hs. destruct (String.eqb choice "1").
  - rewrite !bind_run.
    rewrite (main_login_stable fuel _ (admin_menu fuel) _ (user_menu fuel));
      [|intros; by apply admin_menu_stable
       |intros; by apply user_menu_stable|done].
    pose proof (stdin_le_main_login fuel s) as Hle. unfold stdin_le in Hle.
    destruct (main_login _ _ s) as [[[]|h] s']; simpl in *; [|done].
    apply IH. lia.
  - destruct (String.eqb choice "2"); [done|by apply IH].
Qed.

Lemma main_menu_more_fuel k fuel s :
  (length (stdin s) < fuel)%nat → main_menu (k + fuel) s = main_menu fuel s.
Proof.
  intros Hs. induction k as [|k IH]; [done|].
  rewrite <- IH. apply main_menu_stable. lia.
Qed.
End rounds.

(** X12: the loops of the menus end. Each round of a menu reads at least
    one line, so on a finite input the program stops: by the exit choice,
    by [input] at the end of the input (EOFError), or by an exception.
    In the model: given more rounds than there are lines typed, a run
    never ends for want of rounds, and its outcome is the same for any
    such number of rounds. *)
Theorem main_ends_on_finite_input {Lw : Py.Lower} :
  ∀ (fuel fuel' : nat) (data_dir : option disk) (typed : list string)
    (random : nat → Z),
    (length typed < fuel)%nat →
    (length typed < fuel')%nat →
    (main fuel data_dir typed random).1 ≠ inr OutOfFuel ∧
    main fuel data_dir typed random = main fuel' data_dir typed random.
Proof.
  intros fuel fuel' data_dir typed random Hf Hf'. unfold main.
  destruct (DLFSController.__init__ (bootstrap data_dir)) as [passed|e];
    [|done].
  destruct (Menus.__init__ passed (bootstrap data_dir)) as [c|e]; [|done].
  split.
  - by apply main_menu_ends.
  - assert (∀ k, (length typed < k)%nat →
              Menus.main_menu k (Session c (bootstrap data_dir) typed [] random 0)
              = Menus.main_menu (S (length typed))
                  (Session c (bootstrap data_dir) typed [] random 0)) as Hk.
    { intros k Hk.
      replace k with ((k - S (length typed)) + S (length typed))%nat by lia.
      apply main_menu_more_fuel. simpl. lia. }
    by rewrite (Hk fuel), (Hk fuel').
Qed.

Lemma main_ends_on_finite_input_witness :
  (length ["1"; "admin@dlfs.com"; "admin123"; "3"; "2"] < 6)%nat ∧
  (length ["1"; "admin@dlfs.com"; "admin123"; "3"; "2"] < 9)%nat ∧
  (main (Lw := known_lower) 6 None
     ["1"; "admin@dlfs.com"; "admin123"; "3"; "2"] (λ _, 4821)).1
    ≠ inr OutOfFuel ∧
  main (Lw := known_lower) 6 None
    ["1"; "admin@dlfs.com"; "admin123"; "3"; "2"] (λ _, 4821)
  = main (Lw := known_lower) 9 None
      ["1"; "admin@dlfs.com"; "admin123"; "3"; "2"] (λ _, 4821).
Proof.
  assert (H6 : (length ["1"; "admin@dlfs.com"; "admin123"; "3"; "2"] < 6)%nat)
    by (simpl; lia).
  assert (H9 : (length ["1"; "admin@dlfs.com"; "admin123"; "3"; "2"] < 9)%nat)
    by (simpl; lia).
  split; [exact H6|]. split; [exact H9|].
  exact (main_ends_on_finite_input (Lw := known_lower) 6 9 None _ (λ _, 4821) H6 H9).
Defined.

Section menu_actions.
Import Console Menus.
Implicit Types (s : session) (user : json).
Context {Lw : Py.Lower}.

Lemma report_typed_item_without_id item_type word user s name desc loc rest :
  is_record user → field "id" user = None →
  stdin s = name :: desc :: loc :: rest →
  let r := report_typed_item item_type word user s in
  r.1 = inr (Raised KeyError) ∧
  controller r.2 = controller s ∧ files r.2 = files s ∧
  stdin r.2 = rest ∧ used r.2 = used s.
Proof.
  intros [kv ->] Hid Hin. destruct s as [c fs inp out rnd k].
  simpl in Hin, Hid. subst inp. unfold report_typed_item.
  rewrite !bind_run. cbn. rewrite Hid. by cbn.
Qed.

Lemma print_each_lines (its : list json) s :
  Forall (λ item, ∃ line, item_line item = Ok line) its →
  ∃ lines,
    print_each its s
    = (inl (), Session (controller s) (files s) (stdin s)
                 (stdout s ++ lines) (random s) (used s)) ∧
    Forall2 (λ item w, ∃ line, item_line item = Ok line ∧ w = Print line)
            its lines.
Proof.
  intros Hits. revert s. induction Hits as [|item its [line Hline] _ IH]; intros s.
  - exists []. split; [|constructor]. destruct s. cbn. by rewrite app_nil_r.
  - destruct (IH (write (Print line) s)) as (lines & Hrun & Hall).
    exists (Print line :: lines). split.
    + cbn [print_each]. rewrite bind_run. unfold eval. rewrite Hline.
      rewrite bind_run. cbn [print]. rewrite Hrun. cbn.
      by rewrite <- app_assoc.
    + constructor; [by exists line|done].
Qed.
End menu_actions.

(** X13: an account as [add_user] stores it carries its id under the key
    [user_id], while the menu actions of a logged-in user read
    [user["id"]]. For such an account, reporting a lost or a found item
    reads the three answers and then raises KeyError, and filing a claim
    on a given item id raises KeyError at once; nothing is stored and no
    number is drawn. *)
Theorem added_account_cannot_report :
  ∀ (u : User.t) (s : session) (name desc loc iid : string)
    (rest : list string),
    stdin s = name :: desc :: loc :: rest →
    let account := User.__dict__ u in
    let lost := Menus.report_lost_item account s in
    let found := Menus.report_found_item account s in
    let claim := Menus.claim_item account (Some iid) s in
    (lost.1 = inr (Raised KeyError) ∧ controller lost.2 = controller s ∧
     files lost.2 = files s ∧ stdin lost.2 = rest ∧ used lost.2 = used s) ∧
    (found.1 = inr (Raised KeyError) ∧ controller found.2 = controller s ∧
     files found.2 = files s ∧ stdin found.2 = rest ∧ used found.2 = used s) ∧
    claim = (inr (Raised KeyError), s).
Proof.
  intros u s name desc loc iid rest Hin. cbn zeta. split; [|split].
  - by eapply report_typed_item_without_id; [eexists| |].
  - by eapply report_typed_item_without_id; [eexists| |].
  - reflexivity.
Qed.

Lemma added_account_cannot_report_witness :
  stdin (Session (DLFSController.mk seed_users (JArr []) (JArr []))
           (bootstrap None) ["Wallet"; "Black leather"; "Library"; "5"]
           [] (λ _, 4821) 0)
  = "Wallet" :: "Black leather" :: "Library" :: ["5"] ∧
  (Menus.report_lost_item
     (User.__dict__ (User.__init__ (JStr "3") "X" "x@x.com" "pw" "user"))
     (Session (DLFSController.mk seed_users (JArr []) (JArr []))
        (bootstrap None) ["Wallet"; "Black leather"; "Library"; "5"]
        [] (λ _, 4821) 0)).1
  = inr (Raised KeyError).
Proof.
  split; [reflexivity|].
  exact (proj1 (proj1 (added_account_cannot_report
                         (User.__init__ (JStr "3") "X" "x@x.com" "pw" "user")
                         (Session (DLFSController.mk seed_users (JArr []) (JArr []))
                            (bootstrap None)
                            ["Wallet"; "Black leather"; "Library"; "5"]
                            [] (λ _, 4821) 0)
                         "Wallet" "Black leather" "Library" "ITEM-4821" ["5"]
                         eq_refl))).
Defined.

(** X14: in the user menu, the choices "search by keyword", "search by
    location", "search by type" and "claim an item" call their action
    without an argument, and the action then only asks for a line: no
    search is made, no result is written, no claim is filed. After
    choice 3 with sub-choice 2, 3 or 4 the session is what it was, two
    lines shorter, with the search menu and the prompts written; after
    choice 4 it is what it was, one line shorter, with the prompt
    written. *)
Theorem user_menu_choices_without_effect {Lw : Py.Lower} :
  ∀ (user : json) (s : session) (sub line : string) (rest : list string),
    sub = "2" ∨ sub = "3" ∨ sub = "4" →
    (stdin s = sub :: line :: rest →
     Menus.user_choice user "3" s
     = (inl true,
        Session (controller s) (files s) rest
          (stdout s ++
           [ Print [Lit (Console.nl +:+ "--- Search Menu ---")];
             Print [Lit "1. View All Items"];
             Print [Lit "2. Search by Keyword"];
             Print [Lit "3. Search by Location"];
             Print [Lit "4. Search by Item Type"];
             Prompt "Choose an option: " ] ++
           (if String.eqb sub "2" then [Prompt "Enter keyword: "]
            else if String.eqb sub "3" then [Prompt "Enter location: "]
            else [ Print [Lit "Choose type: 1 for Lost, 2 for Found"];
                   Prompt "Enter choice: " ]))
          (random s) (used s))) ∧
    (stdin s = line :: rest →
     Menus.user_choice user "4" s
     = (inl true,
        Session (controller s) (files s) rest
          (stdout s ++ [Prompt "Enter Item ID to claim: "])
          (random s) (used s))).
Proof.
  intros user [c fs inp out rnd k] sub line rest Hsub. split; simpl; intros ->.
  - destruct Hsub as [->|[->| ->]];
      cbv -[app Console.nl String.append]; by rewrite <- !app_assoc.
  - reflexivity.
Qed.

Lemma user_menu_choices_without_effect_witness :
  Menus.user_choice (Lw := known_lower) (JObj [("id", JInt 2)]) "3"
    (Session (DLFSController.mk seed_users (JArr []) (JArr []))
       (bootstrap None) ["2"; "wallet"; "5"] [] (λ _, 4821) 0)
  = (inl true,
     Session (DLFSController.mk seed_users (JArr []) (JArr []))
       (bootstrap None) ["5"]
       ([] ++
        [ Print [Lit (Console.nl +:+ "--- Search Menu ---")];
          Print [Lit "1. View All Items"];
          Print [Lit "2. Search by Keyword"];
          Print [Lit "3. Search by Location"];
          Print [Lit "4. Search by Item Type"];
          Prompt "Choose an option: " ] ++
        (if String.eqb "2" "2" then [Prompt "Enter keyword: "]
         else if String.eqb "2" "3" then [Prompt "Enter location: "]
         else [ Print [Lit "Choose type: 1 for Lost, 2 for Found"];
                Prompt "Enter choice: " ]))
       (λ _, 4821) 0).
Proof.
  refine (proj1 (user_menu_choices_without_effect (Lw := known_lower)
                   (JObj [("id", JInt 2)])
                   (Session (DLFSController.mk seed_users (JArr []) (JArr []))
                      (bootstrap None) ["2"; "wallet"; "5"] [] (λ _, 4821) 0)
                   "2" "wallet" ["5"] _) eq_refl).
  by left.
Defined.

(** X15: "view all items" lists the collection. On the empty list it
    writes that there are no items. On a list of items that each carry
    the five fields shown (item id, name, location, type, status) it
    writes the two headers and then one line per item, in the order of
    the collection, and returns; the store, the input and the numbers
    drawn are untouched. *)
Theorem view_all_items_lists_collection :
  ∀ (s : session) (its : list json),
    DLFSController.items (controller s) = JArr its →
    Forall (λ item, ∃ line, Menus.item_line item = Ok line) its →
    ∃ lines,
      Menus.view_all_items s
      = (inl (), Session (controller s) (files s) (stdin s)
                   (stdout s ++ lines) (random s) (used s)) ∧
      match its with
      | [] => lines = [Print [Lit "No items in the system."]]
      | _ =>
          ∃ shown,
            lines = Print [Lit (Console.nl +:+ "--- All Items ---")]
                    :: Print [Lit (Console.nl +:+ "--- Items Found ---")]
                    :: shown ∧
            Forall2 (λ item w, ∃ line, Menus.item_line item = Ok line ∧
                                       w = Print line) its shown
      end.
Proof.
  intros s its Hits Hall. unfold Menus.view_all_items, Console.ask.
  rewrite bind_run. rewrite Hits. cbn [Console.eval].
  destruct its as [|item its].
  - eexists. split; [|done]. by destruct s.
  - change (Console.truthy (JArr (item :: its))) with true. cbv iota.
    rewrite bind_run. cbn [Console.print]. unfold Menus.print_items.
    change (Console.truthy (JArr (item :: its))) with true. cbv iota.
    rewrite !bind_run. cbn [Console.print Console.eval Py.iter].
    rewrite bind_run. cbn [Console.eval].
    destruct (print_each_lines (item :: its)
                (Console.write
                   (Print [Lit (Console.nl +:+ "--- Items Found ---")])
                   (Console.write
                      (Print [Lit (Console.nl +:+ "--- All Items ---")]) s))
                Hall) as (shown & Hrun & Hshown).
    rewrite Hrun. eexists. split; [|by exists shown].
    cbn. by rewrite <- !app_assoc.
Qed.

Lemma view_all_items_lists_collection_witness :
  ∃ lines,
    Menus.view_all_items
      (Session
         (DLFSController.mk seed_users
            (JArr [ JObj [ ("item_id", JStr "ITEM-4821"); ("name", JStr "Wallet");
                           ("description", JStr "Black leather");
                           ("location", JStr "Library");
                           ("item_type", JStr "lost");
                           ("status", JStr "reported") ] ])
            (JArr []))
         (bootstrap None) ["5"] [] (λ _, 4821) 0)
    = (inl (),
       Session
         (DLFSController.mk seed_users
            (JArr [ JObj [ ("item_id", JStr "ITEM-4821"); ("name", JStr "Wallet");
                           ("description", JStr "Black leather");
                           ("location", JStr "Library");
                           ("item_type", JStr "lost");
                           ("status", JStr "reported") ] ])
            (JArr []))
         (bootstrap None) ["5"] ([] ++ lines) (λ _, 4821) 0) ∧
    ∃ shown,
      lines = Print [Lit (Console.nl +:+ "--- All Items ---")]
              :: Print [Lit (Console.nl +:+ "--- Items Found ---")]
              :: shown ∧
      Forall2 (λ item w, ∃ line, Menus.item_line item = Ok line ∧ w = Print line)
        [ JObj [ ("item_id", JStr "ITEM-4821"); ("name", JStr "Wallet");
                 ("description", JStr "Black leather");
                 ("location", JStr "Library");
                 ("item_type", JStr "lost");
                 ("status", JStr "reported") ] ]
        shown.
Proof.
  refine (view_all_items_lists_collection
            (Session
               (DLFSController.mk seed_users
                  (JArr [ JObj [ ("item_id", JStr "ITEM-4821"); ("name", JStr "Wallet");
                                 ("description", JStr "Black leather");
                                 ("location", JStr "Library");
                                 ("item_type", JStr "lost");
                                 ("status", JStr "reported") ] ])
                  (JArr []))
               (bootstrap None) ["5"] [] (λ _, 4821) 0)
            [ JObj [ ("item_id", JStr "ITEM-4821"); ("name", JStr "Wallet");
                     ("description", JStr "Black leather");
                     ("location", JStr "Library");
                     ("item_type", JStr "lost");
                     ("status", JStr "reported") ] ]
            eq_refl _).
  repeat constructor. by eexists.
Defined.

Section compose_more.
Import DLFSController.
Implicit Types (self : DLFSController.t) (fs : disk) (us its : list json).
Context {Lw : Py.Lower}.

Lemma first_such_nil {A : Type} (P : A → Prop) (r : option A) :
  first_such P [] r → r = None.
Proof.
  destruct r as [x|]; [|done]. intros (pre & post & Heq & _).
  by destruct pre.
Qed.

Lemma first_such_cons {A : Type} (P : A → Prop) (y : A) (l : list A)
    (r : option A) :
  first_such P (y :: l) r → (r = Some y ∧ P y) ∨ (¬ P y ∧ first_such P l r).
Proof.
  destruct r as [x|]; simpl.
  - intros (pre & post & Heq & Hx & Hpre). destruct pre as [|z pre].
    + injection Heq as -> ->. by left.
    + injection Heq as -> ->. apply Forall_cons in Hpre as [Hz Hpre].
      right. split; [done|]. by exists pre, post.
  - intros [Hy Hl]%Forall_cons. by right.
Qed.

Lemma first_such_fun {A : Type} (P : A → Prop) (l : list A) (r r' : option A) :
  first_such P l r → first_such P l r' → r = r'.
Proof.
  revert r r'. induction l as [|y l IH]; intros r r' Hr Hr'.
  - apply first_such_nil in Hr, Hr'. congruence.
  - destruct (first_such_cons _ _ _ _ Hr) as [[-> Hy]|[Hy Hl]],
             (first_such_cons _ _ _ _ Hr') as [[-> Hy']|[Hy' Hl']];
      try done.
    by apply IH.
Qed.

Lemma login_after_add_user self fs uid name email password role us e p :
  load_data fs "users.json" = Ok (JArr us) →
  Forall is_record us →
  ∃ self' fs' r,
    add_user self fs uid name email password role = Ok (self', fs') ∧
    login self' e p = Ok r ∧
    first_such (credentials e p)
      (us ++ [User.__dict__ (User.__init__ uid name email password role)]) r.
Proof.
  intros Hload Hrec.
  rewrite (add_user_appends self fs uid name email password role us Hload).
  eexists _, _. unfold login. simpl.
  destruct (login_loop_first e p
              (us ++ [User.__dict__ (User.__init__ uid name email password role)]))
    as (r & Hr & Hfirst).
  { apply Forall_app. split; [done|]. repeat constructor. by eexists. }
  by exists r.
Qed.

Lemma select_app (cond : json → result bool) (l1 l2 : list json) :
  select cond (l1 ++ l2)
  = r1 ← select cond l1; r2 ← select cond l2; Ok (r1 ++ r2).
Proof.
  induction l1 as [|x l1 IH]; simpl.
  - by destruct (select cond l2).
  - destruct (cond x) as [b|e]; simpl; [|done]. rewrite IH.
    destruct (select cond l1) as [r1|e]; simpl; [|done].
    destruct (select cond l2) as [r2|e]; simpl; [|done].
    by destruct b.
Qed.
End compose_more.

(** X16: logging in after [add_user]. When the users file holds a list of
    records, [add_user] returns, and a login with the email and password
    of the new account then returns the new account if no account before
    it carries that same email and password; if one does, the login
    returns the first such older account, and the new account cannot be
    logged into. *)
Theorem login_after_add_user_first_wins :
  ∀ (self : DLFSController.t) (fs : disk) (uid : json)
    (name email password role : string) (us : list json),
    load_data fs "users.json" = Ok (JArr us) →
    Forall is_record us →
    ∃ self' fs',
      DLFSController.add_user self fs uid name email password role
      = Ok (self', fs') ∧
      (Forall (λ u, ¬ credentials email password u) us →
       DLFSController.login self' email password
       = Ok (Some (User.__dict__
                     (User.__init__ uid name email password role)))) ∧
      (∀ older, first_such (credentials email password) us (Some older) →
                DLFSController.login self' email password = Ok (Some older)).
Proof.
  intros self fs uid name email password role us Hload Hrec.
  destruct (login_after_add_user self fs uid name email password role us
              email password Hload Hrec)
    as (self' & fs' & r & Hadd & Hlogin & Hfirst).
  exists self', fs'. split; [done|]. split.
  - intros Hnone. rewrite Hlogin. f_equal.
    eapply first_such_fun; [exact Hfirst|].
    exists us, []. by split_and!.
  - intros older (pre & post & -> & Holder & Hpre). rewrite Hlogin. f_equal.
    eapply first_such_fun; [exact Hfirst|].
    exists pre, (post ++ [User.__dict__
                            (User.__init__ uid name email password role)]).
    split_and!; try done. by rewrite <- app_assoc.
Qed.

Lemma login_after_add_user_first_wins_witness :
  load_data (bootstrap None) "users.json" = Ok seed_users ∧
  ∃ self' fs',
    DLFSController.add_user
      (DLFSController.mk seed_users (JArr []) (JArr [])) (bootstrap None)
      (JStr "3") "Second admin" "admin@dlfs.com" "admin123" "user"
    = Ok (self', fs') ∧
    (Forall (λ u, ¬ credentials "admin@dlfs.com" "admin123" u)
       [ JObj [ ("id", JInt 1); ("name", JStr "Admin");
                ("email", JStr "admin@dlfs.com");
                ("password", JStr "admin123"); ("role", JStr "admin") ];
         JObj [ ("id", JInt 2); ("name", JStr "User");
                ("email", JStr "User@dlfs.com");
                ("password", JStr "user123"); ("role", JStr "user") ] ] →
     DLFSController.login self' "admin@dlfs.com" "admin123"
     = Ok (Some (User.__dict__
                   (User.__init__ (JStr "3") "Second admin" "admin@dlfs.com"
                      "admin123" "user")))) ∧
    (∀ older,
       first_such (credentials "admin@dlfs.com" "admin123")
         [ JObj [ ("id", JInt 1); ("name", JStr "Admin");
                  ("email", JStr "admin@dlfs.com");
                  ("password", JStr "admin123"); ("role", JStr "admin") ];
           JObj [ ("id", JInt 2); ("name", JStr "User");
                  ("email", JStr "User@dlfs.com");
                  ("password", JStr "user123"); ("role", JStr "user") ] ]
         (Some older) →
       DLFSController.login self' "admin@dlfs.com" "admin123" = Ok (Some older)).
Proof.
  split; [reflexivity|].
  apply (login_after_add_user_first_wins
           (DLFSController.mk seed_users (JArr []) (JArr [])) (bootstrap None)
           (JStr "3") "Second admin" "admin@dlfs.com" "admin123" "user").
  - reflexivity.
  - repeat constructor; by eexists.
Defined.

(** X17: a reported item can be found. Over items whose name is a text,
    after [report_item] a search by name returns what it returned before,
    followed by the new item when the query, lowered by [str.lower],
    occurs in the new name lowered by [str.lower], and just what it
    returned before when it does not. For a query and a new name that are
    ASCII the condition is that the query occurs in the new name up to
    the case of letters. *)
Theorem report_then_search {Lw : Py.Lower} :
  ∀ (self : DLFSController.t) (fs : disk) (drawn : Z)
    (name description location item_type query : string) (uid : json)
    (its : list json),
    DLFSController.items self = JArr its →
    Forall (text_field "name") its →
    ∃ id self' fs' item before,
      DLFSController.report_item self fs drawn
        name description location item_type uid = Ok (id, self', fs') ∧
      DLFSController.items self' = JArr (its ++ [item]) ∧
      field "item_id" item = Some (JStr id) ∧
      DLFSController.search_items_name self query = Ok before ∧
      (occurs (Py.lower query) (Py.lower name) →
       DLFSController.search_items_name self' query = Ok (before ++ [item])) ∧
      (¬ occurs (Py.lower query) (Py.lower name) →
       DLFSController.search_items_name self' query = Ok before) ∧
      (Py.is_ascii query = true → Py.is_ascii name = true →
       (ci_substring query name →
        DLFSController.search_items_name self' query = Ok (before ++ [item])) ∧
       (¬ ci_substring query name →
        DLFSController.search_items_name self' query = Ok before)).
Proof.
  intros self fs drawn name description location item_type query uid its
    Hits Htext.
  destruct (search_items_keeps "name" self query its Hits Htext)
    as (before & Hbefore & _).
  unfold DLFSController.report_item. rewrite Hits.
  eexists _, _, _, _, before. split; [reflexivity|].
  split; [reflexivity|]. split; [reflexivity|]. split; [exact Hbefore|].
  unfold DLFSController.search_items_name, DLFSController.search_items in *.
  rewrite Hits in Hbefore. simpl in Hbefore. simpl.
  rewrite select_app, Hbefore. simpl.
  assert (Hnew :
    (occurs (Py.lower query) (Py.lower name) →
     Py.str_in (Py.lower query) (Py.lower name) = true) ∧
    (¬ occurs (Py.lower query) (Py.lower name) →
     Py.str_in (Py.lower query) (Py.lower name) = false)).
  { rewrite <- str_in_occurs.
    by destruct (Py.str_in (Py.lower query) (Py.lower name)). }
  destruct Hnew as [Hyes Hno]. split_and!.
  - intros Hocc. by rewrite (Hyes Hocc).
  - intros Hocc. by rewrite (Hno Hocc), app_nil_r.
  - intros Hq Hn. split; intros Hci.
    + rewrite Hyes; [done|]. by apply occurs_lower_ascii.
    + rewrite Hno; [by rewrite app_nil_r|].
      intros Hocc. by apply Hci, occurs_lower_ascii.
Qed.

Lemma report_then_search_witness :
  DLFSController.items
    (DLFSController.mk seed_users
       (JArr [ JObj [ ("item_id", JStr "ITEM-1000"); ("name", JStr "Red Scarf") ] ])
       (JArr []))
  = JArr [ JObj [ ("item_id", JStr "ITEM-1000"); ("name", JStr "Red Scarf") ] ] ∧
  ∃ id self' fs' item before,
    DLFSController.report_item
      (DLFSController.mk seed_users
         (JArr [ JObj [ ("item_id", JStr "ITEM-1000"); ("name", JStr "Red Scarf") ] ])
         (JArr []))
      (bootstrap None) 4821 "Blue scarf" "Wool" "Gym" "found" (JInt 2)
    = Ok (id, self', fs') ∧
    DLFSController.items self'
    = JArr ([ JObj [ ("item_id", JStr "ITEM-1000"); ("name", JStr "Red Scarf") ] ]
            ++ [item]) ∧
    field "item_id" item = Some (JStr id) ∧
    DLFSController.search_items_name (Lw := known_lower)
      (DLFSController.mk seed_users
         (JArr [ JObj [ ("item_id", JStr "ITEM-1000"); ("name", JStr "Red Scarf") ] ])
         (JArr []))
      "SCARF" = Ok before ∧
    (occurs (Py.lower (Lower := known_lower) "SCARF")
            (Py.lower (Lower := known_lower) "Blue scarf") →
     DLFSController.search_items_name (Lw := known_lower) self' "SCARF"
     = Ok (before ++ [item])) ∧
    (¬ occurs (Py.lower (Lower := known_lower) "SCARF")
              (Py.lower (Lower := known_lower) "Blue scarf") →
     DLFSController.search_items_name (Lw := known_lower) self' "SCARF"
     = Ok before) ∧
    (Py.is_ascii "SCARF" = true → Py.is_ascii "Blue scarf" = true →
     (ci_substring "SCARF" "Blue scarf" →
      DLFSController.search_items_name (Lw := known_lower) self' "SCARF"
      = Ok (before ++ [item])) ∧
     (¬ ci_substring "SCARF" "Blue scarf" →
      DLFSController.search_items_name (Lw := known_lower) self' "SCARF"
      = Ok before)).
Proof.
  split; [reflexivity|].
  apply (report_then_search (Lw := known_lower)
           (DLFSController.mk seed_users
              (JArr [ JObj [ ("item_id", JStr "ITEM-1000");
                             ("name", JStr "Red Scarf") ] ])
              (JArr []))
           (bootstrap None) 4821 "Blue scarf" "Wool" "Gym" "found" "SCARF" (JInt 2)).
  - reflexivity.
  - repeat constructor. by eexists.
Defined.
